(** * SEG Y bindings (obspy/io/segy/core.py): a shallow embedding

    Files are byte strings ([list byte]); a file object is a byte string
    together with a read position.  Python exceptions are the [Raise]
    results of [result].  A global name is bound when an import statement
    or a definition of the module binds it; evaluating a name that is not
    bound raises [NameError]. *)

From Stdlib Require Import ZArith List Lia Bool String Ascii.
From Stdlib.Strings Require Import Byte.
From Stdlib Require Import SpecFloat.
From stdpp Require Import base option list gmap strings.
From Equations Require Import Equations.

#[local] Open Scope Z_scope.
#[local] Unset Default Proof Using.

(** ** Exceptions and results *)

Inductive exn : Type :=
  | StructError            (* struct.error *)
  | ZeroDivisionError
  | OverflowError
  | ValueError
  | OSError
  | KeyError
  | IndexError
  | AttributeError
  | UnicodeDecodeError
  | SEGYCoreWritingError
  | SEGYSampleIntervalError
  | SEGYError
  | NameError.

Inductive result (A : Type) : Type :=
  | Ok (a : A)
  | Raise (e : exn).
Arguments Ok {A} a.
Arguments Raise {A} e.

Definition bind {A B : Type} (r : result A) (k : A -> result B) : result B :=
  match r with
  | Ok a => k a
  | Raise e => Raise e
  end.

Notation "'let!' x ':=' r 'in' k" := (bind r (fun x => k))
  (at level 10, x name, r at level 100, k at level 200).

(** ** The names of the module

    The names bound at module level: those of the import statements of
    lines 11-27, the three constants, and the classes and functions the
    module defines.  Line 13 is [from struct import unpack]: it binds
    [unpack], not [struct]; no statement binds [os], [re] or [codecs]. *)

Definition module_globals : list string :=
  ["warnings"; "deepcopy"; "unpack"; "np"; "Stream"; "Trace";
   "UTCDateTime"; "AttribDict"; "open_bytes_stream";
   "BINARY_FILE_HEADER_FORMAT"; "DATA_SAMPLE_FORMAT_CODE_DTYPE"; "ENDIAN";
   "TRACE_HEADER_FORMAT"; "TRACE_HEADER_KEYS"; "_read_segyrev1";
   "_read_su_file"; "SEGYBinaryFileHeader"; "SEGYError"; "SEGYFile";
   "SEGYTrace"; "SEGYTraceHeader"; "SUFile";
   "autodetect_endian_and_sanity_check_su"; "unpack_header_value";
   "VALID_FORMATS"; "MAX_INTERVAL_IN_SECONDS"; "MAX_NUMBER_OF_SAMPLES";
   "SEGYCoreWritingError"; "SEGYSampleIntervalError"; "_is_segy";
   "_read_segy"; "seismo_read_segy_"; "seismo_segy_read_textual_header";
   "seismo_read_trace_headers"; "seismo_get_segy_number_of_traces";
   "seismo_segy_remove_extended_headers";
   "seismo_segy_read_extended_textual_headers";
   "seismo_segy_read_num_samples_from_textual_header";
   "seismo_segy_read_binary_header"; "seismo_plot_two_streams_fdomain";
   "_write_segy"; "_is_su"; "_read_su"; "_write_su"; "_segy_trace_str_";
   "LazyTraceHeaderAttribDict"]%string.

(** The evaluation of the global name [name], then of what follows. *)
Definition global {A : Type} (name : string) (k : result A) : result A :=
  if existsb (String.eqb name) module_globals then k else Raise NameError.

(** ** Bytes, slices and [struct] *)

Definition byte_val (b : byte) : Z := Z.of_N (Byte.to_N b).

(** Python's [s[a:b]] for [0 <= a <= b]: the slice is clamped to the
    length of [s]. *)
Definition slice {A : Type} (s : list A) (a b : nat) : list A :=
  firstn (b - a) (skipn a s).

(** The byte order characters of [struct]: ['>'] and ['<']. *)
Inductive endian : Type := Big | Little.

Definition to_signed16 (u : Z) : Z := if u <? 32768 then u else u - 65536.

(** [unpack(b'>h', s)[0]] and [unpack(b'<h', s)[0]]: [struct.error] unless
    [s] has exactly two bytes. *)
Definition unpack_h (e : endian) (s : list byte) : result Z :=
  match s with
  | [b0; b1] =>
      Ok (to_signed16
            match e with
            | Big => 256 * byte_val b0 + byte_val b1
            | Little => byte_val b0 + 256 * byte_val b1
            end)
  | _ => Raise StructError
  end.

(** [struct.pack('>h', 0)]. *)
Definition pack_h_zero : list byte := [x00; x00].

(** A file object open for reading: [read n] returns the bytes from the
    position up to [n] of them (fewer at the end of the file, none past
    it) and advances the position by what it returned. *)
Definition fread (content : list byte) (pos n : nat) : list byte * nat :=
  let data := slice content pos (pos + n) in
  (data, (pos + length data)%nat).

(** The value of an expression together with the equation that names it:
    the loops below recurse under the test of what a [read] returned. *)
Definition inspect {A : Type} (x : A) : {y : A | x = y} := exist _ x eq_refl.

(** ** Format detection: [_is_segy] *)

Module Detector.

Definition VALID_FORMATS : list Z := [1; 2; 3; 4; 5; 8].

(** [format in VALID_FORMATS] *)
Definition valid_format (format : Z) : bool :=
  existsb (Z.eqb format) VALID_FORMATS.

(** What [open_bytes_stream(file)] gives: a stream over the bytes of the
    file, or an exception (a missing or unreadable file). *)
Inductive source : Type :=
  | Unreadable
  | Readable (content : list byte).

Record raw_fields : Type := {
  _number_of_data_traces : list byte;
  _number_of_auxiliary_traces : list byte;
  _sample_interval : list byte;
  _samples_per_trace : list byte;
  data_format_code : list byte;
  _format_number : list byte;
  _fixed_length : list byte;
  _extended_number : list byte
}.

(** Lines 70-82: the reads inside the first [try]. *)
Definition read_raw_fields (content : list byte) : raw_fields :=
  let pos := 3212%nat in
  let '(ndt, pos) := fread content pos 2 in
  let '(naux, pos) := fread content pos 2 in
  let '(si, pos) := fread content pos 2 in
  let pos := (pos + 2)%nat in
  let '(spt, pos) := fread content pos 2 in
  let pos := (pos + 2)%nat in
  let '(dfc, pos) := fread content pos 2 in
  let pos := 3500%nat in
  let '(fmt, pos) := fread content pos 2 in
  let '(fixd, pos) := fread content pos 2 in
  let '(ext, pos) := fread content pos 2 in
  {| _number_of_data_traces := ndt;
     _number_of_auxiliary_traces := naux;
     _sample_interval := si;
     _samples_per_trace := spt;
     data_format_code := dfc;
     _format_number := fmt;
     _fixed_length := fixd;
     _extended_number := ext |}.

(** Lines 85-100: the choice of [_endian].  [Ok None] is [return False]. *)
Definition select_endian (data_format_code : list byte)
  : result (option endian) :=
  match unpack_h Big data_format_code with
  | Raise _ => Ok None
  | Ok format =>
      if valid_format format then Ok (Some Big)
      else
        let! format := unpack_h Little data_format_code in
        if valid_format format then Ok (Some Little) else Ok None
  end.

(** Lines 101-126: the checks made with the selected byte order. *)
Definition sanity_checks (_endian : endian) (f : raw_fields) : result bool :=
  let! _sample_interval := unpack_h _endian (_sample_interval f) in
  let! _samples_per_trace := unpack_h _endian (_samples_per_trace f) in
  let! _number_of_data_traces := unpack_h _endian (_number_of_data_traces f) in
  let! _number_of_auxiliary_traces :=
    unpack_h _endian (_number_of_auxiliary_traces f) in
  let! _format_number := unpack_h _endian (_format_number f) in
  if negb (existsb (Z.eqb _format_number) [0x0000; 0x0100; 0x0010; 0x0001])
  then Ok false
  else
    let! _fixed_length := unpack_h _endian (_fixed_length f) in
    let! _extended_number := unpack_h _endian (_extended_number f) in
    if (_sample_interval <=? 0) || (_samples_per_trace <=? 0)
       || (_number_of_data_traces <? 0) || (_number_of_auxiliary_traces <? 0)
       || (_fixed_length <? 0) || (_extended_number <? 0)
    then Ok false
    else Ok true.

Definition _is_segy (file : source) : result bool :=
  match file with
  | Unreadable => Ok false
  | Readable content =>
      let f := read_raw_fields content in
      let! o := select_endian (data_format_code f) in
      match o with
      | None => Ok false
      | Some _endian => sanity_checks _endian f
      end
  end.

(** A file of 3226 bytes, all zero but the last: the data sample format
    code reads as 1 in big endian, and nothing is left at offset 3500. *)
Definition short_file : list byte := repeat x00 3225 ++ [x01].

End Detector.

(** ** Python floats

    A [float] is an IEEE 754 binary64 number: [spec_float] at precision 53
    and maximal exponent 1024, with the Standard Library's correctly
    rounded operations. *)

Definition prec : Z := 53.
Definition emax : Z := 1024.

Definition int_as_float (z : Z) : spec_float :=
  match z with
  | Z0 => S754_zero false
  | Zpos p => S754_finite false p 0
  | Zneg p => S754_finite true p 0
  end.

(** [float(z)] *)
Definition float_of_int (z : Z) : spec_float :=
  binary_normalize prec emax z 0 false.

(** [a / b] on two [int]s: the correctly rounded quotient. *)
Definition int_truediv (a b : Z) : result spec_float :=
  if b =? 0 then Raise ZeroDivisionError
  else
    match SFdiv prec emax (int_as_float a) (int_as_float b) with
    | S754_infinity _ => Raise OverflowError
    | q => Ok q
    end.

(** [x * n] for a [float] and an [int]. *)
Definition float_mul_int (x : spec_float) (n : Z) : spec_float :=
  SFmul prec emax x (float_of_int n).

(** [int(x)]: truncation towards zero. *)
Definition int_of_float (x : spec_float) : result Z :=
  match x with
  | S754_zero _ => Ok 0
  | S754_infinity _ => Raise OverflowError
  | S754_nan => Raise ValueError
  | S754_finite s m e =>
      let v := match e with
               | Zneg p => Z.shiftr (Zpos m) (Zpos p)
               | _ => Z.shiftl (Zpos m) e
               end in
      Ok (if s then - v else v)
  end.

(** ** File layout: [seismo_get_segy_number_of_traces] *)

Module Layout.

(** [ns = int((10**6/dt)*60)] *)
Definition samples_in_a_minute (dt : Z) : result Z :=
  let! q := int_truediv (10 ^ 6) dt in
  int_of_float (float_mul_int q 60).

(** [file.seek(offset)] from the start of the file: the new position. *)
Definition fseek (offset : Z) : result Z :=
  if offset <? 0 then Raise OSError else Ok offset.

(** Lines 564-569: the position [start] of the first trace and the size
    [240 + ns*4] taken for a trace.  [struct.unpack] is written with the
    name [struct], which is looked up first. *)
Definition trace_layout (content : list byte) : result (Z * Z) :=
  let '(binary_header, _) := fread content 3200 400 in
  global "struct" (
  let! num_extended_headers := unpack_h Big (slice binary_header 304 306) in
  global "struct" (
  let! dt := unpack_h Big (slice binary_header 16 18) in
  let! ns := samples_in_a_minute dt in
  let! start := fseek (3600 + num_extended_headers * 3200) in
  Ok (start, 240 + ns * 4))).

(** Lines 570-572: [os.path.getsize] is written with the name [os]. *)
Definition seismo_get_segy_number_of_traces (content : list byte)
  : result spec_float :=
  let! layout := trace_layout content in
  let '(start, trace_size) := layout in
  global "os" (
  let file_size := Z.of_nat (length content) in
  let! ntraces := int_truediv (file_size - start) trace_size in
  Ok ntraces).

(** The layout arithmetic in the words of the specification. *)
Definition spec_sample_byte_width (format_code : Z) : option Z :=
  match format_code with
  | 1 => Some 4
  | 2 => Some 4
  | 3 => Some 2
  | 5 => Some 4
  | 8 => Some 1
  | _ => None
  end.

Definition spec_trace_data_offset (extended_header_count : Z) : Z :=
  3200 + 400 + extended_header_count * 3200.

Definition spec_trace_count
  (file_size extended_header_count samples_per_trace width : Z) : Z :=
  (file_size - spec_trace_data_offset extended_header_count)
  / (240 + samples_per_trace * width).

(** The two-byte big endian field at an offset of the file. *)
Definition field_at (content : list byte) (offset : nat) : result Z :=
  unpack_h Big (slice content offset (offset + 2)).

(** A file with the given values, in big endian, of the sample
    interval (bytes 3216-3217), the samples per trace (3220-3221), the
    format code (3224-3225) and the extended header count (3504-3505),
    zero elsewhere, [size] bytes long ([3506 <= size]). *)
Definition be16 (v : Z) : list byte :=
  match Byte.of_N (Z.to_N (v / 256)), Byte.of_N (Z.to_N (v mod 256)) with
  | Some hi, Some lo => [hi; lo]
  | _, _ => [x00; x00]
  end.

Definition zeros (n : Z) : list byte := repeat x00 (Z.to_nat n).

Definition make_file (dt spt code ext size : Z) : list byte :=
  zeros 3216 ++ be16 dt ++ zeros 2 ++ be16 spt ++ zeros 2 ++ be16 code
  ++ zeros 278 ++ be16 ext ++ zeros (size - 3506).

End Layout.

(** ** Removal of the extended textual headers *)

Module Surgery.

(** The size asked of [infile.read] at line 628. *)
Definition copy_chunk : nat := 4096.

Opaque copy_chunk.

(** Lines 627-631: [infile] is given by its unread bytes, [out] is what
    has been written to [outfile]. *)
Equations? copy_loop (unread : list byte) (out : list byte) : list byte
  by wf (length unread) lt :=
  copy_loop unread out with inspect (firstn copy_chunk unread) := {
    | exist _ nil _ := out
    | exist _ data _ := copy_loop (skipn copy_chunk unread) (out ++ data) }.
Proof.
  assert (copy_chunk = 4096%nat) as Hsize by (vm_compute; reflexivity).
  destruct unread; [rewrite firstn_nil in *; discriminate|].
  rewrite length_skipn, Hsize. simpl length. lia.
Qed.

(** [binary_header[304:306] = value] on a [bytearray]. *)
Definition assign_304_306 (binary_header value : list byte) : list byte :=
  firstn 304 binary_header ++ value ++ skipn 306 binary_header.

(** [Ok (Some out)]: the file [removed_ex_headers_<name>] was written with
    the bytes [out].  [Ok None]: no file was written.  Lines 596-599 build
    the name of the output with [os.path], before the input is opened;
    lines 608 and 613 are written with [struct], line 616 with [os].  The
    clause of line 633, written [elif:] without a condition, is taken as
    the [else:] of the test of line 611. *)
Definition seismo_segy_remove_extended_headers (content : list byte)
  : result (option (list byte)) :=
  global "os" (
  let pos := 0%nat in
  let '(textual_header, pos) := fread content pos 3200 in
  let '(binary_header, pos) := fread content pos 400 in
  global "struct" (
  let! num_extended_headers := unpack_h Big (slice binary_header 304 306) in
  if 0 <? num_extended_headers then
    global "struct" (
    let binary_header := assign_304_306 binary_header pack_h_zero in
    global "os" (
    let pos := (pos + Z.to_nat (num_extended_headers * 3200))%nat in
    let out := textual_header ++ binary_header in
    Ok (Some (copy_loop (skipn pos content) out))))
  else Ok None)).

End Surgery.

(** ** The extended textual headers *)

Module Scanner.

(** [32 <= byte <= 126 or byte == 10 or byte == 13] *)
Definition is_text_byte (b : byte) : bool :=
  let v := byte_val b in
  ((32 <=? v) && (v <=? 126)) || (v =? 10) || (v =? 13).

(** [all(... for byte in extended_header)] *)
Definition is_text_block (extended_header : list byte) : bool :=
  forallb is_text_byte extended_header.

(** [bytes.decode('ascii')] *)
Fixpoint decode_ascii (s : list byte) : result string :=
  match s with
  | [] => Ok EmptyString
  | b :: rest =>
      if byte_val b <? 128 then
        let! tail := decode_ascii rest in
        Ok (String (ascii_of_byte b) tail)
      else Raise UnicodeDecodeError
  end.

(** [str.isspace] on a character below 128: tab to carriage return, the
    four separators and the space. *)
Definition py_isspace (c : ascii) : bool :=
  let n := Z.of_N (N_of_ascii c) in
  ((9 <=? n) && (n <=? 13)) || ((28 <=? n) && (n <=? 32)).

Fixpoint lstrip (s : string) : string :=
  match s with
  | EmptyString => EmptyString
  | String c rest => if py_isspace c then lstrip rest else s
  end.

Fixpoint rstrip (s : string) : string :=
  match s with
  | EmptyString => EmptyString
  | String c rest =>
      match rstrip rest with
      | EmptyString => if py_isspace c then EmptyString
                       else String c EmptyString
      | kept => String c kept
      end
  end.

(** [str.strip()] *)
Definition strip (s : string) : string := rstrip (lstrip s).

Definition CR : ascii := ascii_of_byte x0d.
Definition LF : ascii := ascii_of_byte x0a.

(** [header.replace("\r\n", "\n")] *)
Fixpoint replace_crlf (s : string) : string :=
  match s with
  | EmptyString => EmptyString
  | String c rest =>
      match rest with
      | String d rest' =>
          if Ascii.eqb c CR && Ascii.eqb d LF
          then String LF (replace_crlf rest')
          else String c (replace_crlf rest)
      | EmptyString => String c EmptyString
      end
  end.

(** The size asked of [file.read] at line 655. *)
Definition header_block : nat := 3200.

Opaque header_block.

(** Lines 653-666: [file] is given by its unread bytes. *)
Equations? scan_loop (unread : list byte) (headers : list string)
  (bytesize : Z) : result (list string * Z) by wf (length unread) lt :=
  scan_loop unread headers bytesize
    with inspect (firstn header_block unread) := {
    | exist _ nil _ := Ok (headers, bytesize)
    | exist _ extended_header _ :=
        if is_text_block extended_header then
          let! text := decode_ascii extended_header in
          scan_loop (skipn header_block unread) (headers ++ [strip text])
                    (bytesize + Z.of_nat (length extended_header))
        else Ok (headers, bytesize) }.
Proof.
  assert (header_block = 3200%nat) as Hsize by (vm_compute; reflexivity).
  destruct unread; [rewrite firstn_nil in *; discriminate|].
  rewrite length_skipn, Hsize. simpl length. lia.
Qed.

(** The state [(headers, bytesize)] when the loop is left. *)
Definition scan (content : list byte) : result (list string * Z) :=
  scan_loop (skipn 3600 content) [] 0.

(** Lines 668-670. *)
Definition format_headers (headers : list string) : string :=
  fold_left
    (fun formatted_header header =>
       formatted_header +:+ (replace_crlf header +:+ String LF EmptyString))
    headers EmptyString.

Definition seismo_segy_read_extended_textual_headers (content : list byte)
  : result string :=
  let! state := scan content in
  Ok (format_headers (fst state)).

(** A block of 3200 bytes: the given bytes, then spaces. *)
Definition block_of (text : list byte) : list byte :=
  text ++ repeat x20 (3200 - length text).

(** Two blocks, [A] and [B], against one block holding [A], a line feed
    and [B]. *)
Definition two_blocks_file : list byte :=
  repeat x00 3600 ++ block_of [x41] ++ block_of [x42].

Definition one_block_file : list byte :=
  repeat x00 3600 ++ block_of [x41; x0a; x42].

End Scanner.

(** ** Reading a file into its three components: [seismo_read_segy_]

    The reader of [segy.py] and the conversion of its traces are taken as
    they are given: [_read_segyrev1] returns the traces of the file or
    raises, [to_obspy_trace] makes the [Trace] of a trace, and
    [source_measurement_unit] is the value of
    [trace.stats.segy.trace_header.source_measurement_unit].  A [Stream]
    is the list of its traces; the file wide headers are set on a stream
    that is not returned. *)

Module Components.

Section Split.

Variables FileName ReadOptions SEGYTrace Trace : Type.
Variable _read_segyrev1 : FileName -> ReadOptions -> result (list SEGYTrace).
Variable to_obspy_trace : bool -> bool -> SEGYTrace -> Trace.
Variable source_measurement_unit : Trace -> Z.

Record streams : Type := {
  N_stream : list Trace;
  E_stream : list Trace;
  Z_stream : list Trace
}.

(** One turn of the loop of lines 305-312. *)
Definition assign (s : streams) (trace : Trace) : streams :=
  let smu := source_measurement_unit trace in
  if smu =? 512 then
    {| N_stream := N_stream s ++ [trace];
       E_stream := E_stream s; Z_stream := Z_stream s |}
  else if smu =? 768 then
    {| N_stream := N_stream s;
       E_stream := E_stream s ++ [trace]; Z_stream := Z_stream s |}
  else if smu =? 1024 then
    {| N_stream := N_stream s;
       E_stream := E_stream s; Z_stream := Z_stream s ++ [trace] |}
  else s.

Definition split_components (stream : list Trace) : streams :=
  fold_left assign stream
    {| N_stream := []; E_stream := []; Z_stream := [] |}.

Definition seismo_read_segy_ (filename : FileName) (headonly : bool)
  (options : ReadOptions) (unpack_trace_headers : bool)
  : result (list (list Trace)) :=
  let! segy_traces := _read_segyrev1 filename options in
  match segy_traces with
  | [] => Raise IndexError          (* segy_object.traces[0] *)
  | _ :: _ =>
      let stream :=
        map (to_obspy_trace headonly unpack_trace_headers) segy_traces in
      let s := split_components stream in
      Ok [N_stream s; E_stream s; Z_stream s]
  end.

End Split.

End Components.

(** ** Writing a stream: [_write_segy]

    The table [DATA_SAMPLE_FORMAT_CODE_DTYPE] of [header.py] and the
    construction and writing of the [SEGYFile] (lines 951-1026, which end
    in [segy_file.write] of [segy.py]) are taken as they are given.  The
    output file lives in a file system [FS] that only [segy_file.write]
    can change. *)

Module Writer.

(** [0.065535], the double nearest to 65535/1000000. *)
Definition MAX_INTERVAL_IN_SECONDS : spec_float :=
  S754_finite false 4722294425275607 (-56).

Definition MAX_NUMBER_OF_SAMPLES : Z := 32767.

Section Write.

Variables dtype FileName FS TraceHeader : Type.
Variable dtype_eqb : dtype -> dtype -> bool.
Variable DATA_SAMPLE_FORMAT_CODE_DTYPE : Z -> option dtype.

Record Trace : Type := {
  npts : Z;                         (* len(tr) *)
  data_dtype : dtype;               (* tr.data.dtype *)
  delta : spec_float;               (* tr.stats.delta *)
  segy_trace_header : option TraceHeader
}.

(** [stream.stats]: each attribute is there or not. *)
Record Stats : Type := {
  stats_data_encoding : option Z;
  binary_file_header : option (option Z);  (* its data_sample_format_code *)
  stats_endian : option string;
  textual_file_header_encoding : option string
}.

Record Stream : Type := {
  traces : list Trace;
  stats : option Stats
}.

(** Lines 951-1026 for a checked stream and the data encoding chosen. *)
Variable build_and_write :
  Stream -> FileName -> Z -> option string -> option string ->
  FS -> result unit * FS.

(** Lines 899-903. *)
Fixpoint check_lengths (trs : list Trace) : result unit :=
  match trs with
  | [] => Ok tt
  | tr :: rest =>
      if MAX_NUMBER_OF_SAMPLES <? npts tr then Raise ValueError
      else check_lengths rest
  end.

(** Lines 906-919: the data encoding that is used.  The value taken from
    [stream.stats.data_encoding] by the first [if] is replaced in both
    branches of the second. *)
Definition choose_data_encoding (stream : Stream) (data_encoding : option Z)
  : result Z :=
  match data_encoding with
  | Some e =>
      if negb (Detector.valid_format e) then Raise SEGYCoreWritingError
      else Ok e
  | None =>
      let data_encoding :=
        match stats stream with
        | Some st => stats_data_encoding st
        | None => None
        end in
      match stats stream with
      | Some st =>
          match binary_file_header st with
          | Some header =>
              match header with
              | Some code => Ok code
              | None => Raise AttributeError
              end
          | None => Ok 1
          end
      | None => Ok 1
      end
  end.

(** Lines 932-949. *)
Fixpoint check_traces (valid_dtype : dtype) (trs : list Trace)
  : result unit :=
  match trs with
  | [] => Ok tt
  | trace :: rest =>
      if negb (dtype_eqb (data_dtype trace) valid_dtype)
      then Raise SEGYCoreWritingError
      else if SFltb MAX_INTERVAL_IN_SECONDS (delta trace)
      then Raise SEGYSampleIntervalError
      else check_traces valid_dtype rest
  end.

(** Lines 899-949: everything before the file is touched. *)
Definition validate (stream : Stream) (data_encoding : option Z)
  : result Z :=
  let! _ := check_lengths (traces stream) in
  let! data_encoding := choose_data_encoding stream data_encoding in
  let! valid_dtype :=
    match DATA_SAMPLE_FORMAT_CODE_DTYPE data_encoding with
    | Some d => Ok d
    | None => Raise KeyError
    end in
  let! _ := check_traces valid_dtype (traces stream) in
  Ok data_encoding.

Definition _write_segy (stream : Stream) (filename : FileName)
  (data_encoding : option Z) (byteorder textual_header_encoding : option string)
  (fs : FS) : result unit * FS :=
  match validate stream data_encoding with
  | Raise e => (Raise e, fs)
  | Ok data_encoding =>
      build_and_write stream filename data_encoding byteorder
        textual_header_encoding fs
  end.

End Write.

(** The numpy types of the encodings, for examples. *)
Inductive np_dtype : Type := float32 | float64 | int32 | int16 | int8.

Definition np_dtype_eqb (a b : np_dtype) : bool :=
  match a, b with
  | float32, float32 | float64, float64 | int32, int32
  | int16, int16 | int8, int8 => true
  | _, _ => false
  end.

Definition code_dtype (code : Z) : option np_dtype :=
  match code with
  | 1 => Some float32
  | 2 => Some int32
  | 3 => Some int16
  | 5 => Some float32
  | _ => None
  end.

End Writer.

(** ** The lazy trace header: [LazyTraceHeaderAttribDict]

    Instances live in a heap, so that two references can be told apart;
    the heap also holds the lists that attributes refer to, and counts how
    often the bytes of a header are read.  The table
    [TRACE_HEADER_FORMAT], the list [TRACE_HEADER_KEYS] of [header.py] and
    [unpack_header_value] of [util.py] are taken as they are given. *)

Module LazyHeader.

(** What an attribute holds: an unpacked integer, bytes, a byte order, or
    a list.  A list is an object of its own that can be changed in place,
    so the attribute holds a reference to it. *)
Inductive value : Type :=
  | VInt (z : Z)
  | VBytes (s : list byte)
  | VEndian (e : endian)
  | VList (r : positive).

(** An [int], [bytes] or [str]: a value that cannot be changed in place. *)
Definition is_plain (v : value) : bool :=
  match v with
  | VList _ => false
  | _ => true
  end.

(** An instance: the two entries that [__init__] writes into [__dict__],
    and the other entries. *)
Record instance : Type := {
  unpacked_header : list byte;
  header_endian : endian;
  attributes : gmap string value
}.

(** [self.__dict__] *)
Definition dict_of (d : instance) : gmap string value :=
  <["unpacked_header"%string := VBytes (unpacked_header d)]>
    (<["endian"%string := VEndian (header_endian d)]> (attributes d)).

Definition readonly : list string :=
  ["unpacked_header"%string; "endian"%string].

Definition is_readonly (key : string) : bool :=
  existsb (String.eqb key) readonly.

Record heap : Type := {
  objects : gmap positive instance;
  lists : gmap positive (list Z);
  buffer_reads : nat
}.

(** [deepcopy(v)], each call with a memo of its own: an [int], [bytes] or a
    [str] is returned as it is; for a list a new list with the same items
    is made.  A reference that names no list of the heap is left alone. *)
Definition deepcopy_value (v : value) (h : heap) : value * heap :=
  match v with
  | VList r =>
      match lists h !! r with
      | Some items =>
          let copy := fresh (dom (lists h)) in
          (VList copy,
           {| objects := objects h;
              lists := <[copy := items]> (lists h);
              buffer_reads := buffer_reads h |})
      | None => (v, h)
      end
  | _ => (v, h)
  end.

(** One entry of [dict((k, deepcopy(v)) for k, v in ...)]. *)
Definition deepcopy_entry (key : string) (v : value)
  (st : gmap string value * heap) : gmap string value * heap :=
  let '(v', h) := deepcopy_value v st.2 in (<[key := v']> st.1, h).

Definition deepcopy_items (items : gmap string value) (h : heap)
  : gmap string value * heap :=
  map_fold deepcopy_entry (∅, h) items.

(** Modelled from the spec: [AttribDict.__setitem__] of [obspy.core], which
    is not under src/.  Setting a field writes the value through to the
    cache, keyed by the field; a key of the class attribute [readonly] is
    refused. *)
Definition setitem (attrs : gmap string value) (key : string) (v : value)
  : result (gmap string value) :=
  if is_readonly key then Raise AttributeError
  else Ok (<[key := v]> attrs).

(** [list.index]: the first position of [name]. *)
Fixpoint index (name : string) (keys : list string) : option nat :=
  match keys with
  | [] => None
  | key :: rest =>
      if String.eqb name key then Some O
      else option_map S (index name rest)
  end.

Section Table.

Variable TRACE_HEADER_FORMAT : list (nat * string * option string * nat).
Variable TRACE_HEADER_KEYS : list string.
Variable unpack_header_value :
  endian -> list byte -> nat -> option string -> result value.

(** The slice of line 1322 is one read of the buffer. *)
Definition count_read (h : heap) : heap :=
  {| objects := objects h;
     lists := lists h;
     buffer_reads := S (buffer_reads h) |}.

Definition store (self : positive) (d : instance) (h : heap) : heap :=
  {| objects := <[self := d]> (objects h);
     lists := lists h;
     buffer_reads := buffer_reads h |}.

(** [setattr(self, key, v)] *)
Definition __setattr__ (self : positive) (key : string) (v : value)
  (h : heap) : result unit * heap :=
  match objects h !! self with
  | None => (Raise AttributeError, h)
  | Some d =>
      match setitem (attributes d) key v with
      | Raise e => (Raise e, h)
      | Ok attrs =>
          (Ok tt,
           store self {| unpacked_header := unpacked_header d;
                         header_endian := header_endian d;
                         attributes := attrs |} h)
      end
  end.

(** Lines 1307-1326. *)
Definition __getitem__ (self : positive) (name : string) (h : heap)
  : result value * heap :=
  match objects h !! self with
  | None => (Raise AttributeError, h)
  | Some d =>
      match dict_of d !! name with
      | Some v => (Ok v, h)
      | None =>
          match index name TRACE_HEADER_KEYS with
          | None => (Raise AttributeError, h)
          | Some index =>
              match nth_error TRACE_HEADER_FORMAT index with
              | None => (Raise IndexError, h)
              | Some (length, name, special_format, start) =>
                  let string :=
                    slice (unpacked_header d) start (start + length) in
                  let h := count_read h in
                  match unpack_header_value (header_endian d) string
                          length special_format with
                  | Raise e => (Raise e, h)
                  | Ok attribute =>
                      match __setattr__ self name attribute h with
                      | (Raise e, h) => (Raise e, h)
                      | (Ok _, h) => (Ok attribute, h)
                      end
                  end
              end
          end
      end
  end.

(** [self.update(data)] of line 1303.  [AttribDict.update] of
    [obspy.core] is not under src/: it passes over a key of [readonly] and
    calls [__setitem__] for every other entry. *)
Definition update (attrs : gmap string value) (data : gmap string value)
  : result (gmap string value) :=
  map_fold (fun key v acc =>
              if is_readonly key then acc
              else let! attrs := acc in setitem attrs key v)
           (Ok attrs) data.

(** Lines 1301-1305: a new object. *)
Definition __init__ (unpacked_header : list byte)
  (unpacked_header_endian : endian) (data : gmap string value) (h : heap)
  : result positive * heap :=
  match update ∅ data with
  | Raise e => (Raise e, h)
  | Ok attrs =>
      let self := fresh (dom (objects h)) in
      (Ok self,
       store self {| unpacked_header := unpacked_header;
                     header_endian := unpacked_header_endian;
                     attributes := attrs |} h)
  end.

(** Lines 1330-1336.  The buffer is [bytes] and the byte order a [str]:
    [deepcopy] returns each as it is.  The entries of [__dict__] other
    than the two of [readonly] are copied one by one. *)
Definition __deepcopy__ (self : positive) (h : heap)
  : result positive * heap :=
  match objects h !! self with
  | None => (Raise AttributeError, h)
  | Some d =>
      let '(data, h) :=
        deepcopy_items
          (filter (fun kv => is_readonly kv.1 = false) (dict_of d)) h in
      __init__ (unpacked_header d) (header_endian d) data h
  end.

(** Reading or setting an attribute through a reference. *)
Inductive access : Type :=
  | Get (name : string)
  | Set_ (name : string) (v : value).

Definition perform (target : positive) (a : access) (h : heap) : heap :=
  match a with
  | Get name => snd (__getitem__ target name h)
  | Set_ name v => snd (__setattr__ target name v h)
  end.

Definition perform_all (target : positive) (accesses : list access)
  (h : heap) : heap :=
  fold_left (fun h a => perform target a h) accesses h.

(** [getattr(target, name).append(z)]: the attribute is looked up by
    [__getitem__] (line 1328); an [int] or [bytes] has no [append]. *)
Definition append (target : positive) (name : string) (z : Z) (h : heap)
  : result unit * heap :=
  match __getitem__ target name h with
  | (Raise e, h) => (Raise e, h)
  | (Ok (VList r), h) =>
      (Ok tt,
       {| objects := objects h;
          lists := alter (fun items => items ++ [z]) r (lists h);
          buffer_reads := buffer_reads h |})
  | (Ok _, h) => (Raise AttributeError, h)
  end.

(** [setattr(target, name, list(items))]: a new list is made and set. *)
Definition bind_list (target : positive) (name : string) (items : list Z)
  (h : heap) : result unit * heap :=
  let r := fresh (dom (lists h)) in
  __setattr__ target name (VList r)
    {| objects := objects h;
       lists := <[r := items]> (lists h);
       buffer_reads := buffer_reads h |}.

(** [target.__dict__['unpacked_header'] = s], as line 1304 writes it. *)
Definition rebind (target : positive) (s : list byte) (h : heap)
  : result unit * heap :=
  match objects h !! target with
  | None => (Raise AttributeError, h)
  | Some d =>
      (Ok tt,
       store target {| unpacked_header := s;
                       header_endian := header_endian d;
                       attributes := attributes d |} h)
  end.

(** What can be done to a header through a reference: an access, setting
    a new list, appending to a list it holds, another buffer. *)
Inductive mutation : Type :=
  | Access (a : access)
  | Bind (name : string) (items : list Z)
  | Append (name : string) (z : Z)
  | Rebind (s : list byte).

Definition mutate (target : positive) (m : mutation) (h : heap) : heap :=
  match m with
  | Access a => perform target a h
  | Bind name items => snd (bind_list target name items h)
  | Append name z => snd (append target name z h)
  | Rebind s => snd (rebind target s h)
  end.

Definition mutate_all (target : positive) (ms : list mutation) (h : heap)
  : heap :=
  fold_left (fun h m => mutate target m h) ms h.

End Table.

(** A mutation that hands in no reference to a list that exists already:
    what it sets is plain or new. *)
Definition no_alias (m : mutation) : bool :=
  match m with
  | Access (Set_ _ v) => is_plain v
  | _ => true
  end.

(** What is seen of a value: for a list, its items. *)
Inductive seen : Type :=
  | SInt (z : Z)
  | SBytes (s : list byte)
  | SEndian (e : endian)
  | SList (items : list Z).

Definition look (h : heap) (v : value) : seen :=
  match v with
  | VInt z => SInt z
  | VBytes s => SBytes s
  | VEndian e => SEndian e
  | VList r => SList (default [] (lists h !! r))
  end.

(** What is seen through a reference: every entry of [__dict__], the
    buffer and the byte order among them. *)
Definition view (h : heap) (ref : positive) : option (gmap string seen) :=
  (fun d => look h <$> dict_of d) <$> objects h !! ref.

(** A table of two fields for examples, with the integers of two and four
    bytes read as [unpack_h] reads them and any other field kept as
    bytes. *)
Definition two_fields : list (nat * string * option string * nat) :=
  [(2%nat, "trace_identification_code"%string, None, 28%nat);
   (2%nat, "source_measurement_unit"%string, None, 230%nat)].

Definition unpack_two_bytes (e : endian) (s : list byte) (length : nat)
  (special_format : option string) : result value :=
  match length with
  | 2%nat => let! z := unpack_h e s in Ok (VInt z)
  | _ => Ok (VBytes s)
  end.

(** A heap with one header of 240 bytes, its unit field set to 512. *)
Definition one_header : heap :=
  {| objects :=
       {[ 1%positive :=
            {| unpacked_header :=
                 repeat x00 230 ++ [x02; x00] ++ repeat x00 8;
               header_endian := Big;
               attributes := ∅ |} ]};
     lists := ∅;
     buffer_reads := 0 |}.

(** The same header after its unit field was read and a list of two picks
    was set. *)
Definition listed_header : heap :=
  {| objects :=
       {[ 1%positive :=
            {| unpacked_header :=
                 repeat x00 230 ++ [x02; x00] ++ repeat x00 8;
               header_endian := Big;
               attributes :=
                 <["picks"%string := VList 1%positive]>
                   {[ "source_measurement_unit"%string := VInt 512 ]} |} ]};
     lists := {[ 1%positive := [7; 8] ]};
     buffer_reads := 1 |}.

End LazyHeader.

(** ** Writing a Seismic Unix file: [_write_su]

    A trace is given by what the function looks at before the file is
    built: the dtype of its data, its sample interval, and
    [stats.su.endian], which is there or not inside a [stats.su] that is
    there or not.  [SUFile.write] of [segy.py] and the loop that fills
    the file are taken as they are given. *)

Module SUWriter.

Section Write.

Variables dtype FileName FS : Type.
Variable dtype_eqb : dtype -> dtype -> bool.
Variable float32 : dtype.

Record Trace : Type := {
  data_dtype : dtype;                     (* trace.data.dtype *)
  delta : spec_float;                     (* trace.stats.delta *)
  su_endian : option (option string)      (* trace.stats.su.endian *)
}.

(** Lines 1205-1247 for a checked stream and the byte order chosen. *)
Variable build_and_write :
  list Trace -> FileName -> string -> FS -> result unit * FS.

(** Lines 1180-1196. *)
Fixpoint check_traces (trs : list Trace) : result unit :=
  match trs with
  | [] => Ok tt
  | trace :: rest =>
      if negb (dtype_eqb (data_dtype trace) float32)
      then Raise SEGYCoreWritingError
      else if SFltb Writer.MAX_INTERVAL_IN_SECONDS (delta trace)
      then Raise SEGYSampleIntervalError
      else check_traces rest
  end.

(** Lines 1199-1204: [stream[0]] raises [IndexError] on an empty
    stream. *)
Definition choose_byteorder (stream : list Trace) (byteorder : option string)
  : result string :=
  match byteorder with
  | Some b => Ok b
  | None =>
      match stream with
      | [] => Raise IndexError
      | first :: _ =>
          match su_endian first with
          | Some (Some e) => Ok e
          | _ => Ok ">"%string
          end
      end
  end.

Definition _write_su (stream : list Trace) (filename : FileName)
  (byteorder : option string) (fs : FS) : result unit * FS :=
  match check_traces stream with
  | Raise e => (Raise e, fs)
  | Ok _ =>
      match choose_byteorder stream byteorder with
      | Raise e => (Raise e, fs)
      | Ok b => build_and_write stream filename b fs
      end
  end.

End Write.

End SUWriter.


(** ** Facts on bytes *)

Lemma byte_val_range (b : byte) : 0 <= byte_val b < 256.
Proof.
  unfold byte_val. pose proof (Byte.to_N_bounded b). lia.
Qed.

Lemma valid_format_spec (v : Z) :
  Detector.valid_format v = true <-> In v [1; 2; 3; 4; 5; 8].
Proof.
  unfold Detector.valid_format, Detector.VALID_FORMATS. simpl.
  rewrite !orb_true_iff, !Z.eqb_eq. intuition lia.
Qed.

(** C1. The detector decodes the two bytes of the data sample format code in
    big endian first and selects [Big] when the value is one of 1, 2, 3, 4,
    5, 8; otherwise it decodes them in little endian and selects [Little]
    when that value is valid; otherwise detection fails and [_is_segy]
    answers [False].  The two byte orders never both give a valid code. *)
Theorem select_endian_two_bytes (b0 b1 : byte) (be le : Z)
  (Hbe : unpack_h Big [b0; b1] = Ok be)
  (Hle : unpack_h Little [b0; b1] = Ok le) :
  (In be [1; 2; 3; 4; 5; 8] ->
     Detector.select_endian [b0; b1] = Ok (Some Big)) /\
  (~ In be [1; 2; 3; 4; 5; 8] -> In le [1; 2; 3; 4; 5; 8] ->
     Detector.select_endian [b0; b1] = Ok (Some Little)) /\
  (~ In be [1; 2; 3; 4; 5; 8] -> ~ In le [1; 2; 3; 4; 5; 8] ->
     Detector.select_endian [b0; b1] = Ok None /\
     forall content,
       Detector.data_format_code (Detector.read_raw_fields content)
         = [b0; b1] ->
       Detector._is_segy (Detector.Readable content) = Ok false) /\
  ~ (In be [1; 2; 3; 4; 5; 8] /\ In le [1; 2; 3; 4; 5; 8]).
Proof.
  assert (Hsel : Detector.select_endian [b0; b1] =
                 Ok (if Detector.valid_format be then Some Big
                     else if Detector.valid_format le then Some Little
                     else None)).
  { unfold Detector.select_endian. rewrite Hbe, Hle. simpl.
    destruct (Detector.valid_format be), (Detector.valid_format le);
      reflexivity. }
  pose proof (valid_format_spec be) as Vbe.
  pose proof (valid_format_spec le) as Vle.
  repeat split.
  - intros H. apply Vbe in H. rewrite Hsel, H. reflexivity.
  - intros Hn H. apply Vle in H. rewrite Hsel, H.
    destruct (Detector.valid_format be) eqn:E; [|reflexivity].
    exfalso. apply Hn, Vbe. reflexivity.
  - rewrite Hsel.
    destruct (Detector.valid_format be) eqn:E1;
      [exfalso; apply H, Vbe; reflexivity|].
    destruct (Detector.valid_format le) eqn:E2;
      [exfalso; apply H0, Vle; reflexivity|]. reflexivity.
  - intros content Hc. unfold Detector._is_segy. rewrite Hc, Hsel.
    destruct (Detector.valid_format be) eqn:E1;
      [exfalso; apply H, Vbe; reflexivity|].
    destruct (Detector.valid_format le) eqn:E2;
      [exfalso; apply H0, Vle; reflexivity|]. reflexivity.
  - intros [H1 H2].
    simpl in Hbe, Hle. injection Hbe as <-. injection Hle as <-.
    pose proof (byte_val_range b0). pose proof (byte_val_range b1).
    unfold to_signed16 in *.
    destruct (256 * byte_val b0 + byte_val b1 <? 32768) eqn:E1;
      destruct (byte_val b0 + 256 * byte_val b1 <? 32768) eqn:E2;
      simpl in H1, H2; lia.
Qed.

(** The bytes 00 03 are format code 3 (two byte integers) in big endian. *)
Lemma select_endian_two_bytes_witness :
  Detector.select_endian [x00; x03] = Ok (Some Big).
Proof.
  apply (select_endian_two_bytes x00 x03 3 768); try reflexivity.
  simpl. lia.
Defined.

(** C5 (the code departs from it). On [short_file] every read at offset
    3212 succeeds and the format code is valid, but the read at offset
    3500 returns no byte, and the [unpack] of line 109, which is outside
    both [try] blocks, raises [struct.error]. *)
Theorem _is_segy_short_file_raises :
  Detector._is_segy (Detector.Readable Detector.short_file) = Raise StructError.
Proof. vm_compute. reflexivity. Qed.

(** ** Facts on slices *)

Lemma slice_slice {A : Type} (s : list A) (a b i j : nat) :
  (a + j <= b)%nat -> slice (slice s a b) i j = slice s (a + i) (a + j).
Proof.
  intros H. unfold slice.
  rewrite skipn_firstn_comm, firstn_firstn, skipn_skipn.
  f_equal; [lia | f_equal; lia].
Qed.

Lemma unpack_h_range (e : endian) (s : list byte) (v : Z) :
  unpack_h e s = Ok v -> -32768 <= v <= 32767.
Proof.
  destruct s as [|b0 [|b1 [|? ?]]]; simpl; try discriminate.
  intros [= <-].
  pose proof (byte_val_range b0). pose proof (byte_val_range b1).
  unfold to_signed16. destruct e.
  - destruct (256 * byte_val b0 + byte_val b1 <? 32768) eqn:E; lia.
  - destruct (byte_val b0 + 256 * byte_val b1 <? 32768) eqn:E; lia.
Qed.

(** ** The trace count: [seismo_get_segy_number_of_traces] *)

(** The file of the specification's layout example with [k = 5]: two
    extended headers, 1000 samples per trace, format code 5 (four bytes a
    sample), [3600 + 6400 + 5 * (240 + 4000)] bytes; its sample interval is
    1000 microseconds. *)
Definition layout_example_file : list byte :=
  Layout.make_file 1000 1000 5 2 31200.

(** C3. As it is written the function returns no count.  The module binds
    [unpack] but not [struct] (line 13), so the first statement that
    decodes the binary header, [struct.unpack] at line 566, raises
    [NameError] on every file.  On the file of the specification's
    example, of [3600 + 6400 + 5 * (240 + 4000)] bytes with two extended
    headers, where the specification's arithmetic counts 5 traces, the
    function raises as on any other. *)
Theorem number_of_traces_raises_name_error :
  (forall content : list byte,
     Layout.seismo_get_segy_number_of_traces content = Raise NameError)
  /\ Z.of_nat (length layout_example_file) = 3600 + 6400 + 5 * (240 + 4000)
  /\ Layout.field_at layout_example_file 3504 = Ok 2
  /\ Layout.spec_trace_count
       (Z.of_nat (length layout_example_file)) 2 1000 4 = 5
  /\ Layout.seismo_get_segy_number_of_traces layout_example_file
     = Raise NameError.
Proof.
  assert (Hraise : forall content : list byte,
             Layout.seismo_get_segy_number_of_traces content
             = Raise NameError).
  { intros content.
    unfold Layout.seismo_get_segy_number_of_traces, Layout.trace_layout.
    destruct (fread content 3200 400) as [binary_header pos].
    reflexivity. }
  split; [exact Hraise|].
  do 3 (split; [vm_compute; reflexivity|]).
  apply Hraise.
Qed.

(** ** A list cut where its first part ends *)

Lemma skipn_app_exact {A : Type} (a b : list A) (n : nat) :
  n = length a -> skipn n (a ++ b) = b.
Proof.
  intros ->. rewrite skipn_app, skipn_all, Nat.sub_diag. reflexivity.
Qed.

Lemma firstn_app_exact {A : Type} (a b : list A) (n : nat) :
  n = length a -> firstn n (a ++ b) = a.
Proof.
  intros ->. rewrite firstn_app, firstn_all, Nat.sub_diag, firstn_O.
  apply app_nil_r.
Qed.

(** ** Removal of the extended headers:
       [seismo_segy_remove_extended_headers] *)

(** A file with one extended header, a blank block, before three bytes of
    trace data. *)
Definition one_extended_header_file : list byte :=
  repeat x20 3200
  ++ (repeat x00 304 ++ [x00; x01] ++ repeat x00 94)
  ++ repeat x20 3200
  ++ [x01; x02; x03].

(** C2. As it is written the function writes no output file.  Its first
    statement, line 596, evaluates [os.path.dirname]; the module binds no
    [os] (and no [struct], which lines 608 and 613 need), so [NameError]
    is raised on every input, before the input file is opened.  A file
    that declares one extended header, with that header and trace data
    behind it, is no exception. *)
Theorem remove_extended_headers_raises_name_error :
  (forall content : list byte,
     Surgery.seismo_segy_remove_extended_headers content = Raise NameError)
  /\ Layout.field_at one_extended_header_file 3504 = Ok 1
  /\ Surgery.seismo_segy_remove_extended_headers one_extended_header_file
     = Raise NameError.
Proof.
  assert (Hraise : forall content : list byte,
             Surgery.seismo_segy_remove_extended_headers content
             = Raise NameError) by (intros content; reflexivity).
  split; [exact Hraise|].
  split; [vm_compute; reflexivity | apply Hraise].
Qed.

(** ** The scan of the extended textual headers *)

Lemma header_block_eq : Scanner.header_block = 3200%nat.
Proof. vm_compute. reflexivity. Qed.

(** One turn of the loop. *)
Lemma scan_loop_unfold (unread : list byte) (hs : list string) (n : Z) :
  Scanner.scan_loop unread hs n
  = match firstn Scanner.header_block unread with
    | [] => Ok (hs, n)
    | b :: l =>
        if Scanner.is_text_block (b :: l) then
          let! text := Scanner.decode_ascii (b :: l) in
          Scanner.scan_loop (skipn Scanner.header_block unread)
            (hs ++ [Scanner.strip text])
            (n + Z.of_nat (length (b :: l)))
        else Ok (hs, n)
    end.
Proof.
  funelim (Scanner.scan_loop unread hs n).
  - rewrite e. reflexivity.
  - rewrite e. reflexivity.
Qed.

Lemma is_text_byte_spec (b : byte) :
  Scanner.is_text_byte b = true
  <-> (0x20 <= byte_val b <= 0x7E \/ byte_val b = 0x0D \/ byte_val b = 0x0A).
Proof.
  unfold Scanner.is_text_byte. cbv zeta.
  rewrite !orb_true_iff, andb_true_iff, !Z.leb_le, !Z.eqb_eq. lia.
Qed.

(** The characters of a block of ASCII bytes. *)
Definition ascii_text (block : list byte) : string :=
  string_of_list_ascii (map ascii_of_byte block).

(** The header kept for an accepted block. *)
Definition header_text (block : list byte) : string :=
  Scanner.strip (ascii_text block).

Lemma decode_text_block (block : list byte) :
  Scanner.is_text_block block = true ->
  Scanner.decode_ascii block = Ok (ascii_text block).
Proof.
  unfold Scanner.is_text_block, ascii_text.
  induction block as [|b l IH]; [reflexivity|].
  cbn [forallb]. intros H. apply andb_true_iff in H as [Hb Hl].
  apply is_text_byte_spec in Hb. cbn [Scanner.decode_ascii].
  rewrite (proj2 (Z.ltb_lt (byte_val b) 128)) by lia.
  rewrite (IH Hl). reflexivity.
Qed.

(** What the loop accepts: text blocks, each of them what one [read]
    returns, up to the end of the file or to the first block that is not
    text. *)
Definition accepted (blocks : list (list byte)) (tail : list byte) : Prop :=
  Forall (fun b => Scanner.is_text_block b = true
                   /\ (0 < length b <= 3200)%nat) blocks
  /\ (tail <> [] ->
      Forall (fun b => length b = 3200%nat) blocks
      /\ Scanner.is_text_block (firstn 3200 tail) = false).

Lemma scan_loop_accepts (unread : list byte) :
  forall hs n,
  exists blocks tail,
    unread = concat blocks ++ tail
    /\ accepted blocks tail
    /\ Scanner.scan_loop unread hs n
       = Ok (hs ++ map header_text blocks,
             n + Z.of_nat (length (concat blocks))).
Proof.
  remember (length unread) as len eqn:Hlen.
  revert unread Hlen.
  induction len as [len IH] using lt_wf_ind. intros unread Hlen hs n.
  rewrite scan_loop_unfold, header_block_eq.
  destruct (firstn 3200 unread) as [|b l] eqn:Hblock.
  - exists [], []. cbn [concat map length app].
    assert (unread = []) as ->.
    { destruct unread; [reflexivity | discriminate]. }
    rewrite app_nil_r, Z.add_0_r.
    split; [reflexivity|]. split; [|reflexivity].
    split; [constructor | intros H; exfalso; apply H; reflexivity].
  - destruct (Scanner.is_text_block (b :: l)) eqn:Htext.
    + rewrite (decode_text_block _ Htext). cbn [bind].
      assert (Hsplit : unread = (b :: l) ++ skipn 3200 unread).
      { rewrite <- Hblock. symmetry. apply firstn_skipn. }
      assert (Hbl : (0 < length (b :: l) <= 3200)%nat).
      { split; [simpl; lia|]. rewrite <- Hblock. apply firstn_le_length. }
      destruct (IH (length (skipn 3200 unread))) with
        (unread := skipn 3200 unread) (hs := hs ++ [header_text (b :: l)])
        (n := n + Z.of_nat (length (b :: l)))
        as (blocks & tail & Hrest & [Hall Htail] & Hrun).
      { rewrite Hlen, length_skipn. clear -Hblock.
        destruct unread; [discriminate|]. cbn [length]. lia. }
      { reflexivity. }
      exists ((b :: l) :: blocks), tail.
      split; [|split].
      * cbn [concat]. rewrite <- app_assoc, <- Hrest. exact Hsplit.
      * split; [constructor; [split; assumption | exact Hall]|].
        intros Hne. destruct (Htail Hne) as [Hfull Hstop].
        split; [|exact Hstop]. constructor; [|exact Hfull].
        rewrite <- Hblock. apply firstn_length_le.
        destruct (Nat.le_gt_cases 3200 (length unread)) as [Hle|Hgt];
          [exact Hle|].
        exfalso. apply Hne. rewrite skipn_all2 in Hrest by lia.
        symmetry in Hrest. apply app_eq_nil in Hrest. apply Hrest.
      * unfold header_text in *. rewrite Hrun. cbn [map concat].
        rewrite <- app_assoc, length_app. cbn [app]. do 2 f_equal. lia.
    + exists [], unread. cbn [concat map length app].
      rewrite app_nil_r, Z.add_0_r.
      split; [reflexivity|]. split; [|reflexivity].
      split; [constructor|]. intros _. split; [constructor|].
      rewrite Hblock. exact Htext.
Qed.

(** The returned string, block by block: each header with its CRLF pairs
    replaced by a line feed, followed by a line feed. *)
Fixpoint join_lines (headers : list string) : string :=
  match headers with
  | [] => EmptyString
  | header :: rest =>
      (Scanner.replace_crlf header +:+ String Scanner.LF EmptyString)
      +:+ join_lines rest
  end.

Lemma string_app_assoc (a b c : string) : (a +:+ b) +:+ c = a +:+ (b +:+ c).
Proof.
  induction a as [|x a IH]; [reflexivity|].
  change (String x ((a +:+ b) +:+ c) = String x (a +:+ (b +:+ c))).
  f_equal. exact IH.
Qed.

Lemma string_app_empty (a : string) : a +:+ EmptyString = a.
Proof.
  induction a as [|x a IH]; [reflexivity|].
  change (String x (a +:+ EmptyString) = String x a).
  f_equal. exact IH.
Qed.

Lemma format_headers_join (headers : list string) :
  Scanner.format_headers headers = join_lines headers.
Proof.
  unfold Scanner.format_headers.
  enough (H : forall acc,
             fold_left
               (fun formatted_header header =>
                  formatted_header
                  +:+ (Scanner.replace_crlf header
                       +:+ String Scanner.LF EmptyString))
               headers acc
             = acc +:+ join_lines headers) by apply (H EmptyString).
  induction headers as [|h hs IH]; intros acc; cbn [fold_left join_lines].
  - now rewrite string_app_empty.
  - rewrite IH. apply string_app_assoc.
Qed.

(** C7, as the code has it. For every file the function returns one string
    and nothing else: the blocks accepted by the scan, in order, each
    decoded as ASCII, stripped of the white space around it, with every
    CRLF pair replaced by a line feed, and followed by a line feed.  The
    number of bytes of the accepted blocks is counted in [bytesize] while
    scanning and is not part of what is returned. *)
Theorem read_extended_textual_headers_string (content : list byte) :
  exists blocks tail,
    skipn 3600 content = concat blocks ++ tail
    /\ accepted blocks tail
    /\ Scanner.scan content
       = Ok (map header_text blocks, Z.of_nat (length (concat blocks)))
    /\ Scanner.seismo_segy_read_extended_textual_headers content
       = Ok (join_lines (map header_text blocks)).
Proof.
  destruct (scan_loop_accepts (skipn 3600 content) [] 0)
    as (blocks & tail & Hsplit & Hacc & Hrun).
  cbn [app] in Hrun. rewrite Z.add_0_l in Hrun.
  exists blocks, tail. repeat (split; [assumption|]).
  unfold Scanner.seismo_segy_read_extended_textual_headers, Scanner.scan.
  rewrite Hrun. cbn [bind fst]. now rewrite format_headers_join.
Qed.

(** C7 fails as stated: neither the sequence of blocks nor the number of
    bytes consumed can be read off what the function returns.  A file with
    the two blocks [A] and [B] and a file with the single block [A], line
    feed, [B] give the same string, from two headers and 6400 bytes for
    the one, one header and 3200 bytes for the other. *)
Lemma read_extended_textual_headers_drops_count :
  Scanner.seismo_segy_read_extended_textual_headers Scanner.two_blocks_file
  = Scanner.seismo_segy_read_extended_textual_headers Scanner.one_block_file
  /\ (exists h1 h2, Scanner.scan Scanner.two_blocks_file = Ok ([h1; h2], 6400))
  /\ (exists h, Scanner.scan Scanner.one_block_file = Ok ([h], 3200))
  /\ ~ (exists recover : string -> list string * Z,
         forall content returned state,
           Scanner.seismo_segy_read_extended_textual_headers content
           = Ok returned ->
           Scanner.scan content = Ok state ->
           recover returned = state).
Proof.
  assert (H2 : exists h1 h2 r,
             Scanner.scan Scanner.two_blocks_file = Ok ([h1; h2], 6400)
             /\ Scanner.seismo_segy_read_extended_textual_headers
                  Scanner.two_blocks_file = Ok r
             /\ Scanner.seismo_segy_read_extended_textual_headers
                  Scanner.one_block_file = Ok r).
  { do 3 eexists. split; [vm_compute; reflexivity|].
    split; vm_compute; reflexivity. }
  assert (H1 : exists h, Scanner.scan Scanner.one_block_file = Ok ([h], 3200)).
  { eexists. vm_compute. reflexivity. }
  destruct H2 as (h1 & h2 & r & Hs2 & Hr2 & Hr1).
  destruct H1 as (h & Hs1).
  split; [now rewrite Hr2, Hr1|].
  split; [now exists h1, h2|].
  split; [now exists h|].
  intros [recover Hrec].
  pose proof (Hrec _ _ _ Hr2 Hs2) as E2.
  pose proof (Hrec _ _ _ Hr1 Hs1) as E1.
  rewrite E2 in E1. discriminate E1.
Qed.

(** The loop goes through any run of full text blocks. *)
Lemma scan_loop_blocks (blocks : list (list byte)) :
  Forall (fun b => length b = 3200%nat /\ Scanner.is_text_block b = true)
         blocks ->
  forall tail hs n,
    Scanner.scan_loop (concat blocks ++ tail) hs n
    = Scanner.scan_loop tail (hs ++ map header_text blocks)
        (n + 3200 * Z.of_nat (length blocks)).
Proof.
  induction 1 as [|block blocks [Hlen Htext] _ IH]; intros tail hs n.
  - cbn [concat map length app]. rewrite app_nil_r.
    f_equal. lia.
  - cbn [concat]. rewrite <- app_assoc.
    rewrite scan_loop_unfold, header_block_eq.
    rewrite firstn_app_exact by (symmetry; exact Hlen).
    rewrite skipn_app_exact by (symmetry; exact Hlen).
    destruct block as [|b l]; [discriminate Hlen|].
    rewrite Htext, (decode_text_block _ Htext). cbn [bind].
    rewrite IH, Hlen. cbn [map length]. rewrite <- app_assoc.
    f_equal. lia.
Qed.

Lemma is_text_block_spec (block : list byte) :
  Scanner.is_text_block block = true
  <-> (forall b, In b block ->
         0x20 <= byte_val b <= 0x7E
         \/ byte_val b = 0x0D \/ byte_val b = 0x0A).
Proof.
  unfold Scanner.is_text_block. rewrite forallb_forall.
  split; intros H b Hb; apply is_text_byte_spec, H, Hb.
Qed.

(** C6. A 3200 byte block read behind the 3600 bytes of the two headers is
    taken as an extended textual header exactly when each of its bytes is
    between 0x20 and 0x7E or is CR or LF.  The first block that is not
    stops the scan, which keeps the blocks before it only; a block that is
    text is kept and the scan goes on.  A block holding a zero byte stops
    the scan. *)
Theorem extended_header_scan_boundary
  (pre : list byte) (blocks : list (list byte)) (block rest : list byte)
  (Hpre : length pre = 3600%nat)
  (Hblocks : Forall (fun b => length b = 3200%nat
                              /\ Scanner.is_text_block b = true) blocks)
  (Hblock : length block = 3200%nat) :
  (Scanner.is_text_block block = true
   <-> (forall b, In b block ->
          0x20 <= byte_val b <= 0x7E
          \/ byte_val b = 0x0D \/ byte_val b = 0x0A))
  /\ (Scanner.is_text_block block = false ->
      Scanner.scan (pre ++ concat blocks ++ block ++ rest)
      = Ok (map header_text blocks, 3200 * Z.of_nat (length blocks))
      /\ Scanner.seismo_segy_read_extended_textual_headers
           (pre ++ concat blocks ++ block ++ rest)
         = Ok (join_lines (map header_text blocks)))
  /\ (Scanner.is_text_block block = true ->
      exists more k,
        0 <= k
        /\ Scanner.scan (pre ++ concat blocks ++ block ++ rest)
           = Ok (map header_text blocks ++ header_text block :: more,
                 3200 * Z.of_nat (length blocks) + 3200 + k))
  /\ (In x00 block -> Scanner.is_text_block block = false).
Proof.
  assert (Hscan : forall hs n,
            Scanner.scan_loop
              (skipn 3600 (pre ++ concat blocks ++ block ++ rest)) hs n
            = Scanner.scan_loop (block ++ rest)
                (hs ++ map header_text blocks)
                (n + 3200 * Z.of_nat (length blocks))).
  { intros hs n. rewrite skipn_app_exact by (symmetry; exact Hpre).
    apply scan_loop_blocks. exact Hblocks. }
  split; [apply is_text_block_spec|]. split; [|split].
  - intros Hstop.
    assert (Hrun : Scanner.scan (pre ++ concat blocks ++ block ++ rest)
                   = Ok (map header_text blocks,
                         3200 * Z.of_nat (length blocks))).
    { unfold Scanner.scan. rewrite Hscan.
      rewrite scan_loop_unfold, header_block_eq.
      rewrite firstn_app_exact by (symmetry; exact Hblock).
      destruct block as [|b l]; [discriminate Hblock|].
      rewrite Hstop. reflexivity. }
    split; [exact Hrun|].
    unfold Scanner.seismo_segy_read_extended_textual_headers.
    rewrite Hrun. cbn [bind fst]. now rewrite format_headers_join.
  - intros Htext. unfold Scanner.scan. rewrite Hscan.
    rewrite scan_loop_unfold, header_block_eq.
    rewrite firstn_app_exact by (symmetry; exact Hblock).
    rewrite skipn_app_exact by (symmetry; exact Hblock).
    destruct block as [|b l]; [discriminate Hblock|].
    rewrite Htext, (decode_text_block _ Htext), Hblock. cbn [bind app].
    destruct (scan_loop_accepts rest
                (map header_text blocks ++ [header_text (b :: l)])
                (0 + 3200 * Z.of_nat (length blocks) + Z.of_nat 3200))
      as (more & tail & _ & _ & Hrun).
    exists (map header_text more), (Z.of_nat (length (concat more))).
    split; [lia|]. unfold header_text in *. rewrite Hrun.
    rewrite <- app_assoc. cbn [app]. do 2 f_equal; lia.
  - intros Hzero.
    destruct (Scanner.is_text_block block) eqn:Htext; [|reflexivity].
    exfalso.
    pose proof (proj1 (is_text_block_spec block) Htext x00 Hzero) as H.
    vm_compute in H. intuition discriminate.
Qed.

(** A text block, then a block of spaces with a zero byte at offset 1000. *)
Definition zero_byte_file : list byte :=
  repeat x00 3600
  ++ concat [Scanner.block_of [x41]]
  ++ (repeat x20 1000 ++ x00 :: repeat x20 2199)
  ++ [x01; x02].

Lemma extended_header_scan_boundary_witness :
  exists h, Scanner.scan zero_byte_file = Ok ([h], 3200).
Proof.
  destruct (extended_header_scan_boundary
              (repeat x00 3600) [Scanner.block_of [x41]]
              (repeat x20 1000 ++ x00 :: repeat x20 2199) [x01; x02])
    as (_ & Hstop & _ & Hzero).
  - vm_compute. reflexivity.
  - constructor; [split; vm_compute; reflexivity | constructor].
  - vm_compute. reflexivity.
  - exists (header_text (Scanner.block_of [x41])).
    apply Hstop, Hzero. apply in_or_app. right. left. reflexivity.
Defined.

(** ** The three component streams *)

Section SplitFacts.

Context {Trace : Type} (smu : Trace -> Z).

Lemma fold_assign (stream : list Trace) :
  forall s : Components.streams Trace,
    let r := fold_left (Components.assign Trace smu) stream s in
    Components.N_stream Trace r
    = Components.N_stream Trace s
      ++ List.filter (fun t => smu t =? 512) stream
    /\ Components.E_stream Trace r
       = Components.E_stream Trace s
         ++ List.filter (fun t => smu t =? 768) stream
    /\ Components.Z_stream Trace r
       = Components.Z_stream Trace s
         ++ List.filter (fun t => smu t =? 1024) stream.
Proof.
  induction stream as [|t stream IH]; intros s.
  - cbn. now rewrite !app_nil_r.
  - cbn [fold_left List.filter]. cbv zeta in *.
    destruct (IH (Components.assign Trace smu s t)) as (HN & HE & HZ).
    rewrite HN, HE, HZ. unfold Components.assign.
    destruct (smu t =? 512) eqn:E1.
    { apply Z.eqb_eq in E1. rewrite E1. cbn. now rewrite <- !app_assoc. }
    destruct (smu t =? 768) eqn:E2.
    { apply Z.eqb_eq in E2. rewrite E2. cbn. now rewrite <- !app_assoc. }
    destruct (smu t =? 1024) eqn:E3; [|auto].
    cbn. now rewrite <- !app_assoc.
Qed.

End SplitFacts.

(** C10, as the code has it.  When the file is read and holds a trace, the
    function returns three streams.  They are, in the order of the file,
    the traces whose source measurement unit is 512, those where it is 768
    and those where it is 1024: a trace of the file is in the first, second
    or third stream exactly when its unit is 512, 768 or 1024, and a trace
    with any other unit is in none of them. *)
Theorem seismo_read_segy_three_streams
  (FileName ReadOptions SEGYTrace Trace : Type)
  (_read_segyrev1 : FileName -> ReadOptions -> result (list SEGYTrace))
  (to_obspy_trace : bool -> bool -> SEGYTrace -> Trace)
  (smu : Trace -> Z)
  (filename : FileName) (headonly : bool) (options : ReadOptions)
  (unpack_trace_headers : bool) (segy_traces : list SEGYTrace)
  (Hread : _read_segyrev1 filename options = Ok segy_traces)
  (Hsome : segy_traces <> []) :
  let stream :=
    map (to_obspy_trace headonly unpack_trace_headers) segy_traces in
  exists N E Z,
    Components.seismo_read_segy_ FileName ReadOptions SEGYTrace Trace
      _read_segyrev1 to_obspy_trace smu
      filename headonly options unpack_trace_headers
    = Ok [N; E; Z]
    /\ N = List.filter (fun t => smu t =? 512) stream
    /\ E = List.filter (fun t => smu t =? 768) stream
    /\ Z = List.filter (fun t => smu t =? 1024) stream
    /\ (forall t, In t stream ->
          (In t N <-> smu t = 512)
          /\ (In t E <-> smu t = 768)
          /\ (In t Z <-> smu t = 1024))
    /\ (forall t, smu t <> 512 -> smu t <> 768 -> smu t <> 1024 ->
          ~ In t N /\ ~ In t E /\ ~ In t Z).
Proof.
  intros stream.
  exists (List.filter (fun t => smu t =? 512) stream),
         (List.filter (fun t => smu t =? 768) stream),
         (List.filter (fun t => smu t =? 1024) stream).
  split.
  { unfold Components.seismo_read_segy_. rewrite Hread. cbn [bind].
    destruct segy_traces as [|first others]; [now elim Hsome|].
    fold stream. unfold Components.split_components.
    destruct (fold_assign smu stream
                {| Components.N_stream := [];
                   Components.E_stream := [];
                   Components.Z_stream := [] |}) as (HN & HE & HZ).
    cbn [Components.N_stream Components.E_stream Components.Z_stream app]
      in HN, HE, HZ.
    now rewrite HN, HE, HZ. }
  do 3 (split; [reflexivity|]).
  split.
  - intros t Hin. rewrite !filter_In, !Z.eqb_eq. tauto.
  - intros t H1 H2 H3. rewrite !filter_In, !Z.eqb_eq. tauto.
Qed.

(** Five traces that are their own source measurement unit. *)
Lemma seismo_read_segy_three_streams_witness :
  Components.seismo_read_segy_ unit unit Z Z
    (fun _ _ => Ok [512; 7; 1024; 768; 512]) (fun _ _ t => t) (fun t => t)
    tt false tt false
  = Ok [[512; 512]; [768]; [1024]].
Proof.
  destruct (seismo_read_segy_three_streams unit unit Z Z
              (fun _ _ => Ok [512; 7; 1024; 768; 512])
              (fun _ _ t => t) (fun t => t) tt false tt false
              [512; 7; 1024; 768; 512] eq_refl)
    as (N & E & Zs & Hrun & -> & -> & -> & _).
  - discriminate.
  - exact Hrun.
Defined.

(** C10 fails as stated for a file that is read and holds no trace: line
    280 takes [segy_object.traces[0]] before the streams are made, and the
    function raises [IndexError] where the claim has it return three
    streams. *)
Lemma seismo_read_segy_no_trace_raises :
  Components.seismo_read_segy_ unit unit Z Z
    (fun _ _ => Ok []) (fun _ _ t => t) (fun t => t)
    tt false tt false
  = Raise IndexError.
Proof. reflexivity. Qed.

(** ** Validation comes before the file is written *)

Section WriteFacts.

Context {dtype FileName FS TraceHeader : Type}.
Variable dtype_eqb : dtype -> dtype -> bool.

Lemma check_lengths_raise (trs : list (Writer.Trace dtype TraceHeader))
  (tr : Writer.Trace dtype TraceHeader) :
  In tr trs ->
  Writer.MAX_NUMBER_OF_SAMPLES < Writer.npts _ _ tr ->
  Writer.check_lengths dtype TraceHeader trs = Raise ValueError.
Proof.
  intros Hin Hlong.
  induction trs as [|t trs IH]; [destruct Hin|].
  cbn [Writer.check_lengths].
  destruct (Writer.MAX_NUMBER_OF_SAMPLES <? Writer.npts _ _ t) eqn:E;
    [reflexivity|].
  destruct Hin as [->|Hin]; [apply Z.ltb_ge in E; lia | exact (IH Hin)].
Qed.

Lemma check_traces_raise (valid_dtype : dtype)
  (trs : list (Writer.Trace dtype TraceHeader))
  (tr : Writer.Trace dtype TraceHeader) :
  In tr trs ->
  dtype_eqb (Writer.data_dtype _ _ tr) valid_dtype = false
  \/ SFltb Writer.MAX_INTERVAL_IN_SECONDS (Writer.delta _ _ tr) = true ->
  exists e,
    Writer.check_traces dtype TraceHeader dtype_eqb valid_dtype trs = Raise e.
Proof.
  intros Hin Hbad.
  induction trs as [|t trs IH]; [destruct Hin|].
  cbn [Writer.check_traces].
  destruct (dtype_eqb (Writer.data_dtype _ _ t) valid_dtype) eqn:E1;
    cbn [negb]; [|eexists; reflexivity].
  destruct (SFltb Writer.MAX_INTERVAL_IN_SECONDS (Writer.delta _ _ t)) eqn:E2;
    [eexists; reflexivity|].
  destruct Hin as [->|Hin]; [|exact (IH Hin)].
  destruct Hbad; congruence.
Qed.

End WriteFacts.

(** C8. If a trace of the stream has more than 32767 samples, or a sample
    interval above 0.065535 seconds, or a dtype that is not the one of the
    data encoding that is used, the function raises and the file system is
    what it was: the checks come before [segy_file.write], the only place
    where the output file is touched. *)
Theorem write_segy_checks_before_writing
  (dtype FileName FS TraceHeader : Type)
  (dtype_eqb : dtype -> dtype -> bool)
  (DATA_SAMPLE_FORMAT_CODE_DTYPE : Z -> option dtype)
  (build_and_write :
     Writer.Stream dtype TraceHeader -> FileName -> Z ->
     option string -> option string -> FS -> result unit * FS)
  (stream : Writer.Stream dtype TraceHeader) (filename : FileName)
  (data_encoding : option Z)
  (byteorder textual_header_encoding : option string) (fs : FS)
  (tr : Writer.Trace dtype TraceHeader)
  (Hin : In tr (Writer.traces _ _ stream))
  (Hbad :
     Writer.MAX_NUMBER_OF_SAMPLES < Writer.npts _ _ tr
     \/ SFltb Writer.MAX_INTERVAL_IN_SECONDS (Writer.delta _ _ tr) = true
     \/ (forall e valid_dtype,
           Writer.choose_data_encoding dtype TraceHeader stream data_encoding
           = Ok e ->
           DATA_SAMPLE_FORMAT_CODE_DTYPE e = Some valid_dtype ->
           dtype_eqb (Writer.data_dtype _ _ tr) valid_dtype = false)) :
  exists e,
    Writer._write_segy dtype FileName FS TraceHeader dtype_eqb
      DATA_SAMPLE_FORMAT_CODE_DTYPE build_and_write
      stream filename data_encoding byteorder textual_header_encoding fs
    = (Raise e, fs).
Proof.
  unfold Writer._write_segy.
  enough (H : exists e,
             Writer.validate dtype TraceHeader dtype_eqb
               DATA_SAMPLE_FORMAT_CODE_DTYPE stream data_encoding = Raise e).
  { destruct H as [e ->]. now exists e. }
  unfold Writer.validate.
  destruct (Writer.check_lengths dtype TraceHeader (Writer.traces _ _ stream))
    as [[]|e0] eqn:Hlen; [|now exists e0].
  cbn [bind].
  destruct (Writer.choose_data_encoding dtype TraceHeader stream data_encoding)
    as [code|e1] eqn:Hcode; [|now exists e1].
  cbn [bind].
  destruct (DATA_SAMPLE_FORMAT_CODE_DTYPE code) as [valid_dtype|] eqn:Hdt;
    [|now exists KeyError].
  cbn [bind].
  destruct Hbad as [Hlong|[Hdelta|Hdtype]].
  - rewrite (check_lengths_raise _ _ Hin Hlong) in Hlen. discriminate.
  - destruct (check_traces_raise dtype_eqb valid_dtype _ _ Hin
                (or_intror Hdelta)) as [e ->].
    now exists e.
  - destruct (check_traces_raise dtype_eqb valid_dtype _ _ Hin
                (or_introl (Hdtype code valid_dtype eq_refl Hdt))) as [e ->].
    now exists e.
Qed.

(** A stream of one [float64] trace written with the default encoding,
    which asks for [float32]; the writer of the example would create the
    file. *)
Definition float64_stream : Writer.Stream Writer.np_dtype unit :=
  {| Writer.traces :=
       [{| Writer.npts := 100;
           Writer.data_dtype := Writer.float64;
           Writer.delta := float_of_int 0;
           Writer.segy_trace_header := None |}];
     Writer.stats := None |}.

Lemma write_segy_checks_before_writing_witness :
  exists e,
    Writer._write_segy Writer.np_dtype string (list (string * list byte)) unit
      Writer.np_dtype_eqb Writer.code_dtype
      (fun _ filename _ _ _ fs => (Ok tt, (filename, []) :: fs))
      float64_stream "out.sgy"%string None None None []
    = (Raise e, []).
Proof.
  apply (write_segy_checks_before_writing
           Writer.np_dtype string (list (string * list byte)) unit
           Writer.np_dtype_eqb Writer.code_dtype
           (fun _ filename _ _ _ fs => (Ok tt, (filename, []) :: fs))
           float64_stream "out.sgy"%string None None None []
           {| Writer.npts := 100;
              Writer.data_dtype := Writer.float64;
              Writer.delta := float_of_int 0;
              Writer.segy_trace_header := None |}).
  - left. reflexivity.
  - right. right. intros e valid_dtype He Hd.
    vm_compute in He. injection He as <-.
    vm_compute in Hd. injection Hd as <-. reflexivity.
Defined.

(** ** The lazy trace header *)

Lemma index_nth (name : string) (keys : list string) (i : nat) :
  LazyHeader.index name keys = Some i -> nth_error keys i = Some name.
Proof.
  revert i. induction keys as [|key keys IH]; intros i; [discriminate|].
  cbn [LazyHeader.index].
  destruct (String.eqb name key) eqn:E.
  - intros [= <-]. apply String.eqb_eq in E. now subst.
  - destruct (LazyHeader.index name keys) as [j|]; [|discriminate].
    intros [= <-]. cbn. now apply IH.
Qed.

Lemma index_In (name : string) (keys : list string) :
  In name keys -> exists i, LazyHeader.index name keys = Some i.
Proof.
  induction keys as [|key keys IH]; [intros []|].
  intros Hin. cbn [LazyHeader.index].
  destruct (String.eqb name key) eqn:E; [now exists 0%nat|].
  destruct Hin as [->|Hin]; [now rewrite String.eqb_refl in E|].
  destruct (IH Hin) as [i ->]. now exists (S i).
Qed.

Lemma index_None (name : string) (keys : list string) :
  ~ In name keys -> LazyHeader.index name keys = None.
Proof.
  induction keys as [|key keys IH]; [reflexivity|].
  intros Hnot. cbn [LazyHeader.index].
  destruct (String.eqb name key) eqn:E.
  - exfalso. apply Hnot. left. symmetry. now apply String.eqb_eq.
  - rewrite IH; [reflexivity|]. intros Hin. apply Hnot. now right.
Qed.

Lemma is_readonly_true (key : string) :
  LazyHeader.is_readonly key = true
  <-> key = "unpacked_header"%string \/ key = "endian"%string.
Proof.
  unfold LazyHeader.is_readonly, LazyHeader.readonly. cbn [existsb].
  rewrite !orb_true_iff, !String.eqb_eq. intuition discriminate.
Qed.

Lemma dict_of_other (d : LazyHeader.instance) (key : string) :
  LazyHeader.is_readonly key = false ->
  LazyHeader.dict_of d !! key = LazyHeader.attributes d !! key.
Proof.
  intros H. unfold LazyHeader.dict_of.
  assert (key <> "unpacked_header"%string /\ key <> "endian"%string)
    as [H1 H2].
  { split; intros ->; discriminate H. }
  rewrite !lookup_insert_ne by congruence. reflexivity.
Qed.

Lemma dict_of_readonly (d : LazyHeader.instance) (key : string) :
  LazyHeader.dict_of d !! key = None -> LazyHeader.is_readonly key = false.
Proof.
  intros H. destruct (LazyHeader.is_readonly key) eqn:E; [|reflexivity].
  apply is_readonly_true in E. unfold LazyHeader.dict_of in H.
  destruct E as [->| ->].
  - rewrite lookup_insert_eq in H. discriminate.
  - rewrite lookup_insert_ne, lookup_insert_eq in H by discriminate.
    discriminate.
Qed.

(** The two entries of [readonly] hold bytes and a byte order: a list is
    found among the other entries. *)
Lemma dict_of_list (d : LazyHeader.instance) (key : string) (r : positive) :
  LazyHeader.dict_of d !! key = Some (LazyHeader.VList r) ->
  LazyHeader.is_readonly key = false
  /\ LazyHeader.attributes d !! key = Some (LazyHeader.VList r).
Proof.
  intros H. destruct (LazyHeader.is_readonly key) eqn:E.
  - apply is_readonly_true in E. unfold LazyHeader.dict_of in H.
    destruct E as [->| ->].
    + rewrite lookup_insert_eq in H. discriminate.
    + rewrite lookup_insert_ne, lookup_insert_eq in H by discriminate.
      discriminate.
  - split; [reflexivity|]. now rewrite dict_of_other in H.
Qed.

(** The instance with one more cached attribute. *)
Definition with_attribute (d : LazyHeader.instance) (key : string)
  (v : LazyHeader.value) : LazyHeader.instance :=
  {| LazyHeader.unpacked_header := LazyHeader.unpacked_header d;
     LazyHeader.header_endian := LazyHeader.header_endian d;
     LazyHeader.attributes := <[key := v]> (LazyHeader.attributes d) |}.

Lemma with_attribute_other (d : LazyHeader.instance) (key other : string)
  (v : LazyHeader.value) :
  key <> other ->
  LazyHeader.dict_of (with_attribute d key v) !! other
  = LazyHeader.dict_of d !! other.
Proof.
  intros Hne. unfold LazyHeader.dict_of, with_attribute.
  cbn [LazyHeader.unpacked_header LazyHeader.header_endian
       LazyHeader.attributes].
  destruct (decide (other = "unpacked_header"%string)) as [->|H1];
    [now rewrite !lookup_insert_eq|].
  rewrite !(lookup_insert_ne _ "unpacked_header"%string) by congruence.
  destruct (decide (other = "endian"%string)) as [->|H2];
    [now rewrite !lookup_insert_eq|].
  rewrite !(lookup_insert_ne _ "endian"%string) by congruence.
  now rewrite lookup_insert_ne by exact Hne.
Qed.

(** The name of an entry of [TRACE_HEADER_FORMAT]. *)
Definition entry_name (entry : nat * string * option string * nat) : string :=
  entry.1.1.2.

Section LazyRuns.

Variable TRACE_HEADER_FORMAT : list (nat * string * option string * nat).
Variable TRACE_HEADER_KEYS : list string.
Variable unpack_header_value :
  endian -> list byte -> nat -> option string -> result LazyHeader.value.

Local Notation getitem :=
  (LazyHeader.__getitem__ TRACE_HEADER_FORMAT TRACE_HEADER_KEYS
     unpack_header_value).
Local Notation perform :=
  (LazyHeader.perform TRACE_HEADER_FORMAT TRACE_HEADER_KEYS
     unpack_header_value).
Local Notation perform_all :=
  (LazyHeader.perform_all TRACE_HEADER_FORMAT TRACE_HEADER_KEYS
     unpack_header_value).

Lemma setattr_run (self : positive) (key : string) (v : LazyHeader.value)
  (h : LazyHeader.heap) (d : LazyHeader.instance) :
  LazyHeader.objects h !! self = Some d ->
  LazyHeader.__setattr__ self key v h
  = if LazyHeader.is_readonly key then (Raise AttributeError, h)
    else (Ok tt, LazyHeader.store self (with_attribute d key v) h).
Proof.
  intros Hself. unfold LazyHeader.__setattr__, LazyHeader.setitem.
  rewrite Hself. destruct (LazyHeader.is_readonly key); reflexivity.
Qed.

(** An access on a header of the heap, step by step. *)
Lemma getitem_run (self : positive) (name : string) (h : LazyHeader.heap)
  (d : LazyHeader.instance) :
  LazyHeader.objects h !! self = Some d ->
  getitem self name h
  = match LazyHeader.dict_of d !! name with
    | Some v => (Ok v, h)
    | None =>
        match LazyHeader.index name TRACE_HEADER_KEYS with
        | None => (Raise AttributeError, h)
        | Some i =>
            match nth_error TRACE_HEADER_FORMAT i with
            | None => (Raise IndexError, h)
            | Some (len, nm, fmt, start) =>
                match unpack_header_value (LazyHeader.header_endian d)
                        (slice (LazyHeader.unpacked_header d) start
                           (start + len)) len fmt with
                | Raise e => (Raise e, LazyHeader.count_read h)
                | Ok v =>
                    if LazyHeader.is_readonly nm
                    then (Raise AttributeError, LazyHeader.count_read h)
                    else (Ok v,
                          LazyHeader.store self (with_attribute d nm v)
                            (LazyHeader.count_read h))
                end
            end
        end
    end.
Proof.
  intros Hself. unfold LazyHeader.__getitem__. rewrite Hself.
  destruct (LazyHeader.dict_of d !! name); [reflexivity|].
  destruct (LazyHeader.index name TRACE_HEADER_KEYS) as [i|]; [|reflexivity].
  destruct (nth_error TRACE_HEADER_FORMAT i) as [[[[len nm] fmt] start]|];
    [|reflexivity].
  destruct (unpack_header_value _ _ _ _) as [v|e]; [|reflexivity].
  rewrite (setattr_run self nm v (LazyHeader.count_read h) d Hself).
  destruct (LazyHeader.is_readonly nm); reflexivity.
Qed.

(** Two heaps in which [self] has the same buffer, the same byte order and
    the same entry, or none, for [name]. *)
Definition same_at (self : positive) (name : string)
  (h h' : LazyHeader.heap) : Prop :=
  match LazyHeader.objects h !! self, LazyHeader.objects h' !! self with
  | Some d, Some d' =>
      LazyHeader.unpacked_header d = LazyHeader.unpacked_header d'
      /\ LazyHeader.header_endian d = LazyHeader.header_endian d'
      /\ LazyHeader.dict_of d !! name = LazyHeader.dict_of d' !! name
  | None, None => True
  | _, _ => False
  end.

Lemma same_at_refl (self : positive) (name : string) (h : LazyHeader.heap) :
  same_at self name h h.
Proof.
  unfold same_at. destruct (LazyHeader.objects h !! self); auto.
Qed.

Lemma same_at_trans (self : positive) (name : string)
  (h1 h2 h3 : LazyHeader.heap) :
  same_at self name h1 h2 -> same_at self name h2 h3 ->
  same_at self name h1 h3.
Proof.
  unfold same_at.
  destruct (LazyHeader.objects h1 !! self), (LazyHeader.objects h2 !! self),
    (LazyHeader.objects h3 !! self); try tauto.
  intros (A1 & A2 & A3) (B1 & B2 & B3).
  repeat split; congruence.
Qed.

Lemma same_at_count_read (self : positive) (name : string)
  (h : LazyHeader.heap) :
  same_at self name h (LazyHeader.count_read h).
Proof.
  unfold same_at. cbn [LazyHeader.count_read LazyHeader.objects].
  destruct (LazyHeader.objects h !! self); auto.
Qed.

Lemma same_at_store (self : positive) (name key : string)
  (v : LazyHeader.value) (h : LazyHeader.heap) (d : LazyHeader.instance) :
  LazyHeader.objects h !! self = Some d -> key <> name ->
  same_at self name h (LazyHeader.store self (with_attribute d key v) h).
Proof.
  intros Hself Hne. unfold same_at, LazyHeader.store.
  cbn [LazyHeader.objects]. rewrite Hself, lookup_insert_eq.
  split; [reflexivity|]. split; [reflexivity|].
  symmetry. apply with_attribute_other. exact Hne.
Qed.

Lemma getitem_same_at (self : positive) (name : string)
  (h h' : LazyHeader.heap) :
  same_at self name h h' ->
  (getitem self name h).1 = (getitem self name h').1.
Proof.
  unfold same_at.
  destruct (LazyHeader.objects h !! self) as [d|] eqn:Hd,
    (LazyHeader.objects h' !! self) as [d'|] eqn:Hd'; try tauto.
  - intros (Hbuf & Hend & Hdict).
    rewrite (getitem_run self name h d Hd), (getitem_run self name h' d' Hd').
    rewrite <- Hbuf, <- Hend, <- Hdict.
    destruct (LazyHeader.dict_of d !! name); [reflexivity|].
    destruct (LazyHeader.index name TRACE_HEADER_KEYS) as [i|];
      [|reflexivity].
    destruct (nth_error TRACE_HEADER_FORMAT i)
      as [[[[len nm] fmt] start]|]; [|reflexivity].
    destruct (unpack_header_value _ _ _ _) as [v|e]; [|reflexivity].
    destruct (LazyHeader.is_readonly nm); reflexivity.
  - intros _. unfold LazyHeader.__getitem__. now rewrite Hd, Hd'.
Qed.

Hypothesis Hkeys : TRACE_HEADER_KEYS = map entry_name TRACE_HEADER_FORMAT.

Lemma getitem_keeps_others (self : positive) (name other : string)
  (h : LazyHeader.heap) :
  name <> other -> same_at self other h (getitem self name h).2.
Proof.
  intros Hne.
  destruct (LazyHeader.objects h !! self) as [d|] eqn:Hd.
  2:{ unfold LazyHeader.__getitem__. rewrite Hd. apply same_at_refl. }
  rewrite (getitem_run self name h d Hd).
  destruct (LazyHeader.dict_of d !! name); [apply same_at_refl|].
  destruct (LazyHeader.index name TRACE_HEADER_KEYS) as [i|] eqn:Hi;
    [|apply same_at_refl].
  pose proof (index_nth _ _ _ Hi) as Hnth. rewrite Hkeys in Hnth.
  rewrite nth_error_map in Hnth.
  destruct (nth_error TRACE_HEADER_FORMAT i)
    as [[[[len nm] fmt] start]|]; [|apply same_at_refl].
  cbn in Hnth. injection Hnth as ->.
  destruct (unpack_header_value _ _ _ _) as [v|e];
    [|apply same_at_count_read].
  destruct (LazyHeader.is_readonly name); [apply same_at_count_read|].
  apply (same_at_trans self other h (LazyHeader.count_read h));
    [apply same_at_count_read|].
  apply same_at_store; [exact Hd | exact Hne].
Qed.

Lemma setattr_keeps_others (self : positive) (name other : string)
  (v : LazyHeader.value) (h : LazyHeader.heap) :
  name <> other ->
  same_at self other h (LazyHeader.__setattr__ self name v h).2.
Proof.
  intros Hne.
  destruct (LazyHeader.objects h !! self) as [d|] eqn:Hd.
  2:{ unfold LazyHeader.__setattr__. rewrite Hd. apply same_at_refl. }
  rewrite (setattr_run self name v h d Hd).
  destruct (LazyHeader.is_readonly name); [apply same_at_refl|].
  apply same_at_store; [exact Hd | exact Hne].
Qed.

End LazyRuns.

(** The name an access reads or sets. *)
Definition access_name (a : LazyHeader.access) : string :=
  match a with
  | LazyHeader.Get name => name
  | LazyHeader.Set_ name _ => name
  end.

(** C4. [TRACE_HEADER_KEYS] lists the names of [TRACE_HEADER_FORMAT].  For a
    header and a name of that list, an access that returns a value leaves
    the value in [__dict__] under the name, and a heap in which the same
    access returns the same value and changes nothing, the count of reads
    of the buffer included.  When the name was in [__dict__] before, the
    access changes nothing; when it was not, the value is what
    [unpack_header_value] makes of the bytes of the field and the buffer
    was read exactly once.  An access that raises caches nothing.  The
    access returns a value when the name is already in [__dict__] or the
    field unpacks. *)
Theorem getitem_twice
  (TRACE_HEADER_FORMAT : list (nat * string * option string * nat))
  (TRACE_HEADER_KEYS : list string)
  (unpack_header_value :
     endian -> list byte -> nat -> option string -> result LazyHeader.value)
  (Hkeys : TRACE_HEADER_KEYS = map entry_name TRACE_HEADER_FORMAT)
  (h : LazyHeader.heap) (self : positive) (d : LazyHeader.instance)
  (name : string)
  (Hself : LazyHeader.objects h !! self = Some d)
  (Hname : In name TRACE_HEADER_KEYS) :
  match LazyHeader.__getitem__ TRACE_HEADER_FORMAT TRACE_HEADER_KEYS
          unpack_header_value self name h with
  | (Ok v, h1) =>
      LazyHeader.__getitem__ TRACE_HEADER_FORMAT TRACE_HEADER_KEYS
        unpack_header_value self name h1 = (Ok v, h1)
      /\ (LazyHeader.buffer_reads h1 <= S (LazyHeader.buffer_reads h))%nat
      /\ (exists d1,
            LazyHeader.objects h1 !! self = Some d1
            /\ LazyHeader.dict_of d1 !! name = Some v)
      /\ match LazyHeader.dict_of d !! name with
         | Some _ => h1 = h
         | None =>
             LazyHeader.buffer_reads h1 = S (LazyHeader.buffer_reads h)
             /\ exists length special_format start,
                  In (length, name, special_format, start)
                     TRACE_HEADER_FORMAT
                  /\ unpack_header_value (LazyHeader.header_endian d)
                       (slice (LazyHeader.unpacked_header d) start
                          (start + length))
                       length special_format = Ok v
         end
  | (Raise _, h1) => LazyHeader.objects h1 = LazyHeader.objects h
  end
  /\ (is_Some (LazyHeader.dict_of d !! name)
      \/ (forall length special_format start,
            In (length, name, special_format, start) TRACE_HEADER_FORMAT ->
            exists v,
              unpack_header_value (LazyHeader.header_endian d)
                (slice (LazyHeader.unpacked_header d) start (start + length))
                length special_format = Ok v) ->
      exists v h1,
        LazyHeader.__getitem__ TRACE_HEADER_FORMAT TRACE_HEADER_KEYS
          unpack_header_value self name h = (Ok v, h1)).
Proof.
  rewrite (getitem_run _ _ _ self name h d Hself).
  destruct (LazyHeader.dict_of d !! name) as [v|] eqn:Hd.
  { split; [|intros _; now exists v, h].
    split; [now rewrite (getitem_run _ _ _ self name h d Hself), Hd|].
    split; [lia|]. split; [|reflexivity].
    exists d. now split. }
  destruct (index_In _ _ Hname) as [i Hi]. rewrite Hi.
  pose proof (index_nth _ _ _ Hi) as Hnth. rewrite Hkeys in Hnth.
  rewrite nth_error_map in Hnth.
  destruct (nth_error TRACE_HEADER_FORMAT i)
    as [[[[len nm] fmt] start]|] eqn:Hentry; [|discriminate].
  cbn in Hnth. injection Hnth as ->.
  pose proof (dict_of_readonly _ _ Hd) as Hro. rewrite Hro.
  destruct (unpack_header_value (LazyHeader.header_endian d)
              (slice (LazyHeader.unpacked_header d) start (start + len))
              len fmt) as [attribute|e] eqn:Hunpack.
  - split; [|intros _; eauto].
    assert (Hnew : LazyHeader.objects
                     (LazyHeader.store self (with_attribute d name attribute)
                        (LazyHeader.count_read h)) !! self
                   = Some (with_attribute d name attribute))
      by (cbn; apply lookup_insert_eq).
    assert (Hin : LazyHeader.dict_of (with_attribute d name attribute)
                  !! name = Some attribute).
    { rewrite dict_of_other by exact Hro.
      cbn [with_attribute LazyHeader.attributes]. apply lookup_insert_eq. }
    split; [now rewrite (getitem_run _ _ _ self name _ _ Hnew), Hin|].
    split; [cbn; lia|].
    split; [exists (with_attribute d name attribute); now split|].
    split; [reflexivity|].
    exists len, fmt, start.
    split; [eapply nth_error_In; exact Hentry | exact Hunpack].
  - split; [reflexivity|].
    intros [[v Hv]|Hcan]; [discriminate|].
    destruct (Hcan len fmt start) as [v Hv].
    + eapply nth_error_In. exact Hentry.
    + congruence.
Qed.

(** The header of [one_header]. *)
Definition the_header : LazyHeader.instance :=
  {| LazyHeader.unpacked_header :=
       repeat x00 230 ++ [x02; x00] ++ repeat x00 8;
     LazyHeader.header_endian := Big;
     LazyHeader.attributes := ∅ |}.

Lemma getitem_twice_witness :
  exists h1,
    LazyHeader.__getitem__ LazyHeader.two_fields
      (map entry_name LazyHeader.two_fields) LazyHeader.unpack_two_bytes
      1%positive "source_measurement_unit"%string LazyHeader.one_header
    = (Ok (LazyHeader.VInt 512), h1)
    /\ LazyHeader.__getitem__ LazyHeader.two_fields
         (map entry_name LazyHeader.two_fields) LazyHeader.unpack_two_bytes
         1%positive "source_measurement_unit"%string h1
       = (Ok (LazyHeader.VInt 512), h1)
    /\ LazyHeader.buffer_reads LazyHeader.one_header = 0%nat
    /\ LazyHeader.buffer_reads h1 = 1%nat.
Proof.
  pose proof (getitem_twice LazyHeader.two_fields
                (map entry_name LazyHeader.two_fields)
                LazyHeader.unpack_two_bytes eq_refl
                LazyHeader.one_header 1%positive the_header
                "source_measurement_unit"%string eq_refl
                (or_intror (or_introl eq_refl))) as [Hfirst _].
  assert (Hrun : exists h1,
             LazyHeader.__getitem__ LazyHeader.two_fields
               (map entry_name LazyHeader.two_fields)
               LazyHeader.unpack_two_bytes 1%positive
               "source_measurement_unit"%string LazyHeader.one_header
             = (Ok (LazyHeader.VInt 512), h1))
    by (eexists; vm_compute; reflexivity).
  destruct Hrun as [h1 Hrun]. rewrite Hrun in Hfirst.
  destruct Hfirst as (Hsecond & _ & _ & Hmiss).
  assert (Hnone : LazyHeader.dict_of the_header
                  !! "source_measurement_unit"%string = None)
    by (vm_compute; reflexivity).
  rewrite Hnone in Hmiss. destruct Hmiss as [Hreads _].
  exists h1. split; [exact Hrun|]. split; [exact Hsecond|].
  split; [reflexivity | exact Hreads].
Defined.

(** ** Copies of a lazy trace header *)

Lemma lookup_not_readonly (m : gmap string LazyHeader.value) (key : string) :
  LazyHeader.is_readonly key = false ->
  filter (fun kv : string * LazyHeader.value =>
            LazyHeader.is_readonly kv.1 = false) m !! key
  = m !! key.
Proof.
  intros Hro. apply option_eq. intros v.
  rewrite map_lookup_filter_Some. cbn [fst]. tauto.
Qed.

Lemma update_all (attrs data : gmap string LazyHeader.value) :
  LazyHeader.update attrs data
  = Ok (filter (fun kv : string * LazyHeader.value =>
                  LazyHeader.is_readonly kv.1 = false) data ∪ attrs).
Proof.
  unfold LazyHeader.update.
  apply (map_fold_weak_ind
           (fun r m =>
              r = Ok (filter (fun kv : string * LazyHeader.value =>
                                LazyHeader.is_readonly kv.1 = false) m
                      ∪ attrs))).
  - now rewrite map_filter_empty, (left_id_L ∅ (∪)).
  - intros key v m r Hfresh ->.
    destruct (LazyHeader.is_readonly key) eqn:Hro.
    + rewrite map_filter_insert_not; [reflexivity|].
      intros y. cbn [fst]. congruence.
    + cbn [bind]. unfold LazyHeader.setitem. rewrite Hro.
      rewrite map_filter_insert_True by exact Hro.
      now rewrite insert_union_l.
Qed.

(** What [deepcopy] makes of a value: the value itself, or for a list a
    reference that named nothing before and now names the same items.  A
    reference that named no list is kept. *)
Definition copied (h h1 : LazyHeader.heap) (v v' : LazyHeader.value) : Prop :=
  match v with
  | LazyHeader.VList r =>
      exists r',
        v' = LazyHeader.VList r'
        /\ ((r' = r /\ LazyHeader.lists h !! r = None)
            \/ (LazyHeader.lists h !! r' = None
                /\ exists items,
                     LazyHeader.lists h1 !! r' = Some items
                     /\ LazyHeader.lists h1 !! r = Some items))
  | _ => v' = v
  end.

Definition copied_entry (h h1 : LazyHeader.heap)
  (entry entry' : option LazyHeader.value) : Prop :=
  match entry, entry' with
  | Some v, Some v' => copied h h1 v v'
  | None, None => True
  | _, _ => False
  end.

Lemma copied_mono (h h1 h2 : LazyHeader.heap) (v v' : LazyHeader.value) :
  LazyHeader.lists h1 ⊆ LazyHeader.lists h2 ->
  copied h h1 v v' -> copied h h2 v v'.
Proof.
  intros Hsub. destruct v as [z|s|e|r]; cbn [copied]; try exact id.
  intros (r' & -> & [Hsame|(Hnone & items & H1 & H2)]); exists r';
    (split; [reflexivity|]); [left; exact Hsame|].
  right. split; [exact Hnone|]. exists items.
  split; eapply lookup_weaken; eassumption.
Qed.

Lemma deepcopy_items_spec (h : LazyHeader.heap)
  (items : gmap string LazyHeader.value) :
  LazyHeader.objects (LazyHeader.deepcopy_items items h).2
  = LazyHeader.objects h
  /\ LazyHeader.buffer_reads (LazyHeader.deepcopy_items items h).2
     = LazyHeader.buffer_reads h
  /\ LazyHeader.lists h
     ⊆ LazyHeader.lists (LazyHeader.deepcopy_items items h).2
  /\ forall key,
       copied_entry h (LazyHeader.deepcopy_items items h).2
         (items !! key) ((LazyHeader.deepcopy_items items h).1 !! key).
Proof.
  unfold LazyHeader.deepcopy_items.
  apply (map_fold_weak_ind
           (fun st m =>
              LazyHeader.objects st.2 = LazyHeader.objects h
              /\ LazyHeader.buffer_reads st.2 = LazyHeader.buffer_reads h
              /\ LazyHeader.lists h ⊆ LazyHeader.lists st.2
              /\ forall key, copied_entry h st.2 (m !! key) (st.1 !! key))).
  - cbn [fst snd]. split; [reflexivity|]. split; [reflexivity|].
    split; [reflexivity|]. intros key. now rewrite !lookup_empty.
  - intros key v m st Hfresh (Hobj & Hreads & Hsub & Hrel).
    unfold LazyHeader.deepcopy_entry.
    assert (Hplain :
              forall v0, copied h st.2 v0 v0 ->
                LazyHeader.objects st.2 = LazyHeader.objects h
                /\ LazyHeader.buffer_reads st.2 = LazyHeader.buffer_reads h
                /\ LazyHeader.lists h ⊆ LazyHeader.lists st.2
                /\ forall k,
                     copied_entry h st.2 (<[key := v0]> m !! k)
                       (<[key := v0]> st.1 !! k)).
    { intros v0 Hv0. split; [exact Hobj|]. split; [exact Hreads|].
      split; [exact Hsub|]. intros k.
      destruct (decide (k = key)) as [->|Hne].
      - rewrite !lookup_insert_eq. exact Hv0.
      - rewrite !lookup_insert_ne by congruence. apply Hrel. }
    destruct v as [z|s|e|r].
    1-3: cbn [LazyHeader.deepcopy_value fst snd]; apply Hplain; reflexivity.
    cbn [LazyHeader.deepcopy_value].
    destruct (LazyHeader.lists st.2 !! r) as [elems|] eqn:Hcur.
    2:{ cbn [fst snd]. apply Hplain. cbn [copied]. exists r.
        split; [reflexivity|]. left. split; [reflexivity|].
        destruct (LazyHeader.lists h !! r) as [x|] eqn:E; [|reflexivity].
        pose proof (lookup_weaken _ _ _ _ E Hsub). congruence. }
    cbn [fst snd LazyHeader.objects LazyHeader.lists LazyHeader.buffer_reads].
    set (r' := fresh (dom (LazyHeader.lists st.2))).
    assert (Hnew : LazyHeader.lists st.2 !! r' = None)
      by (apply not_elem_of_dom, is_fresh).
    assert (Hold : LazyHeader.lists h !! r' = None).
    { destruct (LazyHeader.lists h !! r') as [x|] eqn:E; [|reflexivity].
      pose proof (lookup_weaken _ _ _ _ E Hsub). congruence. }
    assert (Hne' : r' <> r) by (intros E; rewrite E in Hnew; congruence).
    split; [exact Hobj|]. split; [exact Hreads|].
    split; [apply insert_subseteq_r; assumption|].
    intros k. destruct (decide (k = key)) as [->|Hne].
    + rewrite !lookup_insert_eq. cbn [copied_entry copied LazyHeader.lists].
      exists r'. split; [reflexivity|]. right. split; [exact Hold|].
      exists elems. rewrite lookup_insert_eq.
      now rewrite lookup_insert_ne by exact Hne'.
    + rewrite !lookup_insert_ne by congruence.
      generalize (Hrel k). unfold copied_entry.
      destruct (m !! k), (st.1 !! k); try exact id.
      apply copied_mono. cbn [LazyHeader.lists].
      apply insert_subseteq. exact Hnew.
Qed.

(** What [__deepcopy__] stores for the copy of [d], given the copied
    entries. *)
Definition copy_of (d : LazyHeader.instance)
  (data : gmap string LazyHeader.value) : LazyHeader.instance :=
  {| LazyHeader.unpacked_header := LazyHeader.unpacked_header d;
     LazyHeader.header_endian := LazyHeader.header_endian d;
     LazyHeader.attributes :=
       filter (fun kv : string * LazyHeader.value =>
                 LazyHeader.is_readonly kv.1 = false) data |}.

Lemma deepcopy_run (h : LazyHeader.heap) (self : positive)
  (d : LazyHeader.instance)
  (data : gmap string LazyHeader.value) (h1 : LazyHeader.heap) :
  LazyHeader.objects h !! self = Some d ->
  LazyHeader.deepcopy_items
    (filter (fun kv : string * LazyHeader.value =>
               LazyHeader.is_readonly kv.1 = false) (LazyHeader.dict_of d)) h
  = (data, h1) ->
  LazyHeader.__deepcopy__ self h
  = (Ok (fresh (dom (LazyHeader.objects h1))),
     LazyHeader.store (fresh (dom (LazyHeader.objects h1))) (copy_of d data)
       h1).
Proof.
  intros Hself Hitems. unfold LazyHeader.__deepcopy__, LazyHeader.__init__.
  rewrite Hself, Hitems, update_all.
  now rewrite (right_id_L ∅ (∪)).
Qed.

(** The copy, and how its entries stand to those of the original. *)
Lemma deepcopy_spec (h : LazyHeader.heap) (self : positive)
  (d : LazyHeader.instance) :
  LazyHeader.objects h !! self = Some d ->
  exists h' d',
    LazyHeader.__deepcopy__ self h
    = (Ok (fresh (dom (LazyHeader.objects h))), h')
    /\ LazyHeader.objects h' !! self = Some d
    /\ LazyHeader.objects h' !! fresh (dom (LazyHeader.objects h)) = Some d'
    /\ LazyHeader.unpacked_header d' = LazyHeader.unpacked_header d
    /\ LazyHeader.header_endian d' = LazyHeader.header_endian d
    /\ LazyHeader.lists h ⊆ LazyHeader.lists h'
    /\ forall name,
         copied_entry h h' (LazyHeader.dict_of d !! name)
           (LazyHeader.dict_of d' !! name).
Proof.
  intros Hself.
  set (copy := fresh (dom (LazyHeader.objects h))).
  assert (Hfresh : LazyHeader.objects h !! copy = None)
    by (apply not_elem_of_dom, is_fresh).
  assert (Hne : copy <> self) by (intros E; rewrite E in Hfresh; congruence).
  destruct (LazyHeader.deepcopy_items
              (filter (fun kv : string * LazyHeader.value =>
                         LazyHeader.is_readonly kv.1 = false)
                      (LazyHeader.dict_of d)) h) as [data h1] eqn:Hitems.
  pose proof (deepcopy_items_spec h
                (filter (fun kv : string * LazyHeader.value =>
                           LazyHeader.is_readonly kv.1 = false)
                        (LazyHeader.dict_of d))) as Hspec.
  rewrite Hitems in Hspec. cbn [fst snd] in Hspec.
  destruct Hspec as (Hobj & _ & Hsub & Hrel).
  exists (LazyHeader.store copy (copy_of d data) h1), (copy_of d data).
  split.
  { rewrite (deepcopy_run h self d data h1 Hself Hitems), Hobj.
    reflexivity. }
  split.
  { cbn [LazyHeader.store LazyHeader.objects].
    rewrite lookup_insert_ne by exact Hne. now rewrite Hobj. }
  split; [cbn [LazyHeader.store LazyHeader.objects]; apply lookup_insert_eq|].
  do 2 (split; [reflexivity|]).
  split; [exact Hsub|].
  intros name. destruct (LazyHeader.is_readonly name) eqn:Hro.
  - apply is_readonly_true in Hro. unfold LazyHeader.dict_of.
    destruct Hro as [->| ->].
    + rewrite !lookup_insert_eq. reflexivity.
    + rewrite !(lookup_insert_ne _ "unpacked_header"%string) by discriminate.
      rewrite !lookup_insert_eq. reflexivity.
  - rewrite !dict_of_other by exact Hro.
    cbn [copy_of LazyHeader.attributes].
    rewrite lookup_not_readonly by exact Hro.
    generalize (Hrel name). rewrite lookup_not_readonly by exact Hro.
    rewrite dict_of_other by exact Hro. exact id.
Qed.

(** *** What a mutation through one reference leaves alone *)

Section Apart.

Variable TRACE_HEADER_FORMAT : list (nat * string * option string * nat).
Variable TRACE_HEADER_KEYS : list string.
Variable unpack_header_value :
  endian -> list byte -> nat -> option string -> result LazyHeader.value.

Hypothesis Hunpack :
  forall e s n f v,
    unpack_header_value e s n f = Ok v -> LazyHeader.is_plain v = true.

Variable target : positive.
Variable kept_lists : positive -> Prop.

Local Notation getitem :=
  (LazyHeader.__getitem__ TRACE_HEADER_FORMAT TRACE_HEADER_KEYS
     unpack_header_value).
Local Notation mutate :=
  (LazyHeader.mutate TRACE_HEADER_FORMAT TRACE_HEADER_KEYS
     unpack_header_value).
Local Notation mutate_all :=
  (LazyHeader.mutate_all TRACE_HEADER_FORMAT TRACE_HEADER_KEYS
     unpack_header_value).

(** The lists of [kept_lists] are in the heap, and no entry of [target]
    refers to one of them. *)
Definition apart (h : LazyHeader.heap) : Prop :=
  (forall r, kept_lists r -> is_Some (LazyHeader.lists h !! r))
  /\ forall d name r,
       LazyHeader.objects h !! target = Some d ->
       LazyHeader.dict_of d !! name = Some (LazyHeader.VList r) ->
       ~ kept_lists r.

(** From [h] to [h2], every object but [target] and every list of
    [kept_lists] is what it was. *)
Definition kept (h h2 : LazyHeader.heap) : Prop :=
  (forall other,
     other <> target ->
     LazyHeader.objects h2 !! other = LazyHeader.objects h !! other)
  /\ forall r,
       kept_lists r -> LazyHeader.lists h2 !! r = LazyHeader.lists h !! r.

Definition value_apart (v : LazyHeader.value) : Prop :=
  match v with
  | LazyHeader.VList r => ~ kept_lists r
  | _ => True
  end.

Lemma kept_refl (h : LazyHeader.heap) : kept h h.
Proof. split; reflexivity. Qed.

Lemma kept_trans (h1 h2 h3 : LazyHeader.heap) :
  kept h1 h2 -> kept h2 h3 -> kept h1 h3.
Proof.
  intros [A1 A2] [B1 B2]. split.
  - intros other Hne. now rewrite B1, A1.
  - intros r Hr. now rewrite B2, A2.
Qed.

Lemma plain_apart (v : LazyHeader.value) :
  LazyHeader.is_plain v = true -> value_apart v.
Proof. destruct v; [exact (fun _ => I) ..|discriminate]. Qed.

Lemma store_apart (h : LazyHeader.heap) (d : LazyHeader.instance)
  (key : string) (v : LazyHeader.value) :
  LazyHeader.objects h !! target = Some d -> apart h -> value_apart v ->
  apart (LazyHeader.store target (with_attribute d key v) h)
  /\ kept h (LazyHeader.store target (with_attribute d key v) h).
Proof.
  intros Hd [Hlive Hrefs] Hv. split; [split|split].
  - exact Hlive.
  - intros d' name r Hd' Hname.
    cbn [LazyHeader.store LazyHeader.objects] in Hd'.
    rewrite lookup_insert_eq in Hd'. injection Hd' as <-.
    destruct (decide (key = name)) as [->|Hne].
    + apply dict_of_list in Hname as [_ Hattr].
      cbn [with_attribute LazyHeader.attributes] in Hattr.
      rewrite lookup_insert_eq in Hattr. injection Hattr as ->. exact Hv.
    + rewrite with_attribute_other in Hname by exact Hne.
      exact (Hrefs d name r Hd Hname).
  - intros other Hne. cbn [LazyHeader.store LazyHeader.objects].
    now rewrite lookup_insert_ne by congruence.
  - reflexivity.
Qed.

Lemma setattr_apart (h : LazyHeader.heap) (key : string)
  (v : LazyHeader.value) :
  apart h -> value_apart v ->
  apart (LazyHeader.__setattr__ target key v h).2
  /\ kept h (LazyHeader.__setattr__ target key v h).2.
Proof.
  intros Ha Hv. destruct (LazyHeader.objects h !! target) as [d|] eqn:Hd.
  - rewrite (setattr_run target key v h d Hd).
    destruct (LazyHeader.is_readonly key); cbn [snd].
    + split; [exact Ha | apply kept_refl].
    + apply store_apart; assumption.
  - unfold LazyHeader.__setattr__. rewrite Hd. cbn [snd].
    split; [exact Ha | apply kept_refl].
Qed.

Lemma count_read_apart (h : LazyHeader.heap) :
  apart h ->
  apart (LazyHeader.count_read h) /\ kept h (LazyHeader.count_read h).
Proof.
  intros Ha. split; [exact Ha | split; reflexivity].
Qed.

Lemma getitem_apart (h : LazyHeader.heap) (name : string) :
  apart h ->
  apart (getitem target name h).2 /\ kept h (getitem target name h).2.
Proof.
  intros Ha. destruct (LazyHeader.objects h !! target) as [d|] eqn:Hd.
  2:{ unfold LazyHeader.__getitem__. rewrite Hd. cbn [snd].
      split; [exact Ha | apply kept_refl]. }
  rewrite (getitem_run _ _ _ target name h d Hd).
  destruct (LazyHeader.dict_of d !! name);
    [split; [exact Ha | apply kept_refl]|].
  destruct (LazyHeader.index name TRACE_HEADER_KEYS) as [i|];
    [|split; [exact Ha | apply kept_refl]].
  destruct (nth_error TRACE_HEADER_FORMAT i) as [[[[len nm] fmt] start]|];
    [|split; [exact Ha | apply kept_refl]].
  destruct (unpack_header_value _ _ _ _) as [v|e] eqn:Hv;
    [|apply count_read_apart; exact Ha].
  destruct (LazyHeader.is_readonly nm);
    [apply count_read_apart; exact Ha|].
  cbn [snd].
  apply (store_apart (LazyHeader.count_read h) d nm v Hd Ha).
  apply plain_apart. exact (Hunpack _ _ _ _ _ Hv).
Qed.

(** A list that an access returns is a list the header held. *)
Lemma getitem_list (h h1 : LazyHeader.heap) (name : string) (r : positive) :
  apart h ->
  getitem target name h = (Ok (LazyHeader.VList r), h1) ->
  ~ kept_lists r.
Proof.
  intros Ha. destruct (LazyHeader.objects h !! target) as [d|] eqn:Hd.
  2:{ unfold LazyHeader.__getitem__. rewrite Hd. discriminate. }
  rewrite (getitem_run _ _ _ target name h d Hd).
  destruct (LazyHeader.dict_of d !! name) as [v|] eqn:Hname.
  { intros [= -> _]. exact (proj2 Ha d name r Hd Hname). }
  destruct (LazyHeader.index name TRACE_HEADER_KEYS) as [i|]; [|discriminate].
  destruct (nth_error TRACE_HEADER_FORMAT i) as [[[[len nm] fmt] start]|];
    [|discriminate].
  destruct (unpack_header_value _ _ _ _) as [v|e] eqn:Hv; [|discriminate].
  destruct (LazyHeader.is_readonly nm); [discriminate|].
  intros [= -> _]. apply Hunpack in Hv. discriminate Hv.
Qed.

Lemma append_apart (h : LazyHeader.heap) (name : string) (z : Z) :
  apart h ->
  apart (LazyHeader.append TRACE_HEADER_FORMAT TRACE_HEADER_KEYS
           unpack_header_value target name z h).2
  /\ kept h (LazyHeader.append TRACE_HEADER_FORMAT TRACE_HEADER_KEYS
               unpack_header_value target name z h).2.
Proof.
  intros Ha. unfold LazyHeader.append.
  pose proof (getitem_apart h name Ha) as Hget.
  destruct (getitem target name h) as [[v|e] h1] eqn:Hrun; cbn [snd] in *;
    [|exact Hget].
  destruct v as [z0|s|e|r]; cbn [snd]; try exact Hget.
  pose proof (getitem_list h h1 name r Ha Hrun) as Hlist.
  destruct Hget as [[Hlive Hrefs] Hkept].
  assert (Hother : forall r0, kept_lists r0 -> r0 <> r)
    by (intros r0 H0 ->; exact (Hlist H0)).
  split; [split|].
  - intros r0 H0. cbn [LazyHeader.lists].
    rewrite lookup_alter_ne by (apply not_eq_sym, Hother, H0).
    exact (Hlive r0 H0).
  - exact Hrefs.
  - apply (kept_trans h h1); [exact Hkept|]. split; [reflexivity|].
    intros r0 H0. cbn [LazyHeader.lists].
    now rewrite lookup_alter_ne by (apply not_eq_sym, Hother, H0).
Qed.

Lemma bind_list_apart (h : LazyHeader.heap) (name : string)
  (items : list Z) :
  apart h ->
  apart (LazyHeader.bind_list target name items h).2
  /\ kept h (LazyHeader.bind_list target name items h).2.
Proof.
  intros [Hlive Hrefs]. unfold LazyHeader.bind_list.
  set (r := fresh (dom (LazyHeader.lists h))).
  assert (Hnew : LazyHeader.lists h !! r = None)
    by (apply not_elem_of_dom, is_fresh).
  assert (Hr : ~ kept_lists r).
  { intros H. destruct (Hlive r H) as [x Hx]. congruence. }
  assert (Hother : forall r0, kept_lists r0 -> r <> r0)
    by (intros r0 H0 <-; exact (Hr H0)).
  set (h0 := {| LazyHeader.objects := LazyHeader.objects h;
                LazyHeader.lists := <[r := items]> (LazyHeader.lists h);
                LazyHeader.buffer_reads := LazyHeader.buffer_reads h |}).
  assert (Ha0 : apart h0).
  { split; [|exact Hrefs]. intros r0 H0. cbn [h0 LazyHeader.lists].
    rewrite lookup_insert_ne by exact (Hother r0 H0). exact (Hlive r0 H0). }
  assert (Hk0 : kept h h0).
  { split; [reflexivity|]. intros r0 H0. cbn [h0 LazyHeader.lists].
    now rewrite lookup_insert_ne by exact (Hother r0 H0). }
  destruct (setattr_apart h0 name (LazyHeader.VList r) Ha0 Hr) as [Ha Hk].
  split; [exact Ha|]. exact (kept_trans h h0 _ Hk0 Hk).
Qed.

Lemma rebind_apart (h : LazyHeader.heap) (s : list byte) :
  apart h ->
  apart (LazyHeader.rebind target s h).2
  /\ kept h (LazyHeader.rebind target s h).2.
Proof.
  intros Ha. unfold LazyHeader.rebind.
  destruct (LazyHeader.objects h !! target) as [d|] eqn:Hd; cbn [snd].
  2:{ split; [exact Ha | apply kept_refl]. }
  destruct Ha as [Hlive Hrefs].
  split; [split|split].
  - exact Hlive.
  - intros d' name r Hd' Hname.
    cbn [LazyHeader.store LazyHeader.objects] in Hd'.
    rewrite lookup_insert_eq in Hd'. injection Hd' as <-.
    apply dict_of_list in Hname as [Hro Hattr].
    cbn [LazyHeader.attributes] in Hattr.
    apply (Hrefs d name r Hd). now rewrite dict_of_other.
  - intros other Hne. cbn [LazyHeader.store LazyHeader.objects].
    now rewrite lookup_insert_ne by congruence.
  - reflexivity.
Qed.

Lemma mutate_apart (m : LazyHeader.mutation) (h : LazyHeader.heap) :
  LazyHeader.no_alias m = true -> apart h ->
  apart (mutate target m h) /\ kept h (mutate target m h).
Proof.
  intros Hm Ha.
  destruct m as [[name|name v]|name items|name z|s];
    cbn [LazyHeader.mutate LazyHeader.perform].
  - apply getitem_apart. exact Ha.
  - apply setattr_apart; [exact Ha|]. apply plain_apart. exact Hm.
  - apply bind_list_apart. exact Ha.
  - apply append_apart. exact Ha.
  - apply rebind_apart. exact Ha.
Qed.

Lemma mutate_all_apart (ms : list LazyHeader.mutation) :
  Forall (fun m => LazyHeader.no_alias m = true) ms ->
  forall h, apart h ->
            apart (mutate_all target ms h) /\ kept h (mutate_all target ms h).
Proof.
  induction 1 as [|m ms Hm _ IH]; intros h Ha.
  - split; [exact Ha | apply kept_refl].
  - cbn [LazyHeader.mutate_all fold_left].
    destruct (mutate_apart m h Hm Ha) as [Ha1 Hk1].
    destruct (IH _ Ha1) as [Ha2 Hk2].
    split; [exact Ha2|]. exact (kept_trans h _ _ Hk1 Hk2).
Qed.

(** What is seen through another reference whose lists are all kept. *)
Lemma view_kept (h h2 : LazyHeader.heap) (other : positive)
  (d : LazyHeader.instance) :
  kept h h2 -> other <> target ->
  LazyHeader.objects h !! other = Some d ->
  (forall name r,
     LazyHeader.dict_of d !! name = Some (LazyHeader.VList r) ->
     kept_lists r) ->
  LazyHeader.objects h2 !! other = Some d
  /\ LazyHeader.view h2 other = LazyHeader.view h other.
Proof.
  intros [Hobj Hlists] Hne Hd Hrefs.
  assert (Hd2 : LazyHeader.objects h2 !! other = Some d)
    by (now rewrite (Hobj other Hne)).
  split; [exact Hd2|].
  unfold LazyHeader.view. rewrite Hd2, Hd. cbn [fmap option_fmap option_map].
  f_equal. apply map_fmap_ext. intros name v Hv.
  destruct v as [z|s|e|r]; try reflexivity.
  cbn [LazyHeader.look]. now rewrite (Hlists r (Hrefs name r Hv)).
Qed.

End Apart.


(** The header of [listed_header]. *)
Definition the_listed_header : LazyHeader.instance :=
  {| LazyHeader.unpacked_header :=
       repeat x00 230 ++ [x02; x00] ++ repeat x00 8;
     LazyHeader.header_endian := Big;
     LazyHeader.attributes :=
       <["picks"%string := LazyHeader.VList 1%positive]>
         {[ "source_measurement_unit"%string := LazyHeader.VInt 512 ]} |}.

Lemma unpack_two_bytes_plain (e : endian) (s : list byte) (n : nat)
  (f : option string) (v : LazyHeader.value) :
  LazyHeader.unpack_two_bytes e s n f = Ok v -> LazyHeader.is_plain v = true.
Proof.
  unfold LazyHeader.unpack_two_bytes.
  destruct n as [|[|[|n]]]; try (intros [= <-]; reflexivity).
  destruct (unpack_h e s) as [z|err]; cbn [bind]; [|discriminate].
  intros [= <-]. reflexivity.
Qed.

Lemma listed_header_live (name : string) (r : positive) :
  LazyHeader.dict_of the_listed_header !! name = Some (LazyHeader.VList r) ->
  is_Some (LazyHeader.lists LazyHeader.listed_header !! r).
Proof.
  intros H. apply dict_of_list in H as [_ H].
  cbn [the_listed_header LazyHeader.attributes] in H.
  destruct (decide (name = "picks"%string)) as [->|Hne].
  - rewrite lookup_insert_eq in H. injection H as <-.
    exists [7; 8]. reflexivity.
  - rewrite lookup_insert_ne in H by congruence.
    apply lookup_singleton_Some in H as [_ H]. discriminate H.
Qed.

(** What is seen of the entry [name] through [ref]. *)
Definition seen_at (h : LazyHeader.heap) (ref : positive) (name : string)
  : option LazyHeader.seen :=
  match LazyHeader.view h ref with
  | Some entries => entries !! name
  | None => None
  end.


(** * Further properties of the code *)

(** ** [_is_segy]: short and long files *)

Lemma fread_length (content : list byte) (pos n : nat) :
  length (fread content pos n).1 = Nat.min n (length content - pos)
  /\ (fread content pos n).2
     = (pos + Nat.min n (length content - pos))%nat.
Proof.
  unfold fread, slice. cbn [fst snd].
  rewrite length_firstn, length_skipn.
  replace (pos + n - pos)%nat with n by lia. split; reflexivity.
Qed.

Lemma unpack_h_two (e : endian) (s : list byte) :
  length s = 2%nat -> exists v, unpack_h e s = Ok v.
Proof.
  destruct s as [|b0 [|b1 [|b2 s]]]; try discriminate.
  intros _. eexists. reflexivity.
Qed.

Lemma unpack_h_short (e : endian) (s : list byte) :
  (length s < 2)%nat -> unpack_h e s = Raise StructError.
Proof.
  destruct s as [|b0 [|b1 s]]; try reflexivity. cbn [length]. lia.
Qed.

(** The reads of [read_raw_fields] with the two offsets as variables. *)
Definition read_fields_at (first second : nat) (content : list byte)
  : Detector.raw_fields :=
  let pos := first in
  let '(ndt, pos) := fread content pos 2 in
  let '(naux, pos) := fread content pos 2 in
  let '(si, pos) := fread content pos 2 in
  let pos := (pos + 2)%nat in
  let '(spt, pos) := fread content pos 2 in
  let pos := (pos + 2)%nat in
  let '(dfc, pos) := fread content pos 2 in
  let pos := second in
  let '(fmt, pos) := fread content pos 2 in
  let '(fixd, pos) := fread content pos 2 in
  let '(ext, pos) := fread content pos 2 in
  {| Detector._number_of_data_traces := ndt;
     Detector._number_of_auxiliary_traces := naux;
     Detector._sample_interval := si;
     Detector._samples_per_trace := spt;
     Detector.data_format_code := dfc;
     Detector._format_number := fmt;
     Detector._fixed_length := fixd;
     Detector._extended_number := ext |}.

Lemma read_raw_fields_at (content : list byte) :
  Detector.read_raw_fields content = read_fields_at 3212 3500 content.
Proof. reflexivity. Qed.

(** The lengths of what the eight reads return. *)
Lemma read_fields_at_lengths (first second : nat) (content : list byte) :
  let f := read_fields_at first second content in
  let len := length content in
  ((len < first + 14)%nat -> (length (Detector.data_format_code f) < 2)%nat)
  /\ ((first + 14 <= len)%nat -> (second + 6 <= len)%nat ->
      length (Detector._number_of_data_traces f) = 2%nat
      /\ length (Detector._number_of_auxiliary_traces f) = 2%nat
      /\ length (Detector._sample_interval f) = 2%nat
      /\ length (Detector._samples_per_trace f) = 2%nat
      /\ length (Detector.data_format_code f) = 2%nat
      /\ length (Detector._format_number f) = 2%nat
      /\ length (Detector._fixed_length f) = 2%nat
      /\ length (Detector._extended_number f) = 2%nat).
Proof.
  cbv zeta. unfold read_fields_at.
  destruct (fread content first 2) as [ndt p1] eqn:E1.
  pose proof (fread_length content first 2) as [L1 P1].
  rewrite E1 in L1, P1. cbn [fst snd] in L1, P1.
  destruct (fread content p1 2) as [naux p2] eqn:E2.
  pose proof (fread_length content p1 2) as [L2 P2].
  rewrite E2 in L2, P2. cbn [fst snd] in L2, P2.
  destruct (fread content p2 2) as [si p3] eqn:E3.
  pose proof (fread_length content p2 2) as [L3 P3].
  rewrite E3 in L3, P3. cbn [fst snd] in L3, P3.
  destruct (fread content (p3 + 2) 2) as [spt p4] eqn:E4.
  pose proof (fread_length content (p3 + 2) 2) as [L4 P4].
  rewrite E4 in L4, P4. cbn [fst snd] in L4, P4.
  destruct (fread content (p4 + 2) 2) as [dfc p5] eqn:E5.
  pose proof (fread_length content (p4 + 2) 2) as [L5 P5].
  rewrite E5 in L5, P5. cbn [fst snd] in L5, P5.
  destruct (fread content second 2) as [fmt p6] eqn:E6.
  pose proof (fread_length content second 2) as [L6 P6].
  rewrite E6 in L6, P6. cbn [fst snd] in L6, P6.
  destruct (fread content p6 2) as [fixd p7] eqn:E7.
  pose proof (fread_length content p6 2) as [L7 P7].
  rewrite E7 in L7, P7. cbn [fst snd] in L7, P7.
  destruct (fread content p7 2) as [ext p8] eqn:E8.
  pose proof (fread_length content p7 2) as [L8 P8].
  rewrite E8 in L8, P8. cbn [fst snd] in L8, P8.
  cbn [Detector._number_of_data_traces Detector._number_of_auxiliary_traces
       Detector._sample_interval Detector._samples_per_trace
       Detector.data_format_code Detector._format_number
       Detector._fixed_length Detector._extended_number].
  clear E1 E2 E3 E4 E5 E6 E7 E8. split.
  - intros Hlen.
    destruct (Nat.lt_ge_cases (length dfc) 2) as [H|H]; [exact H|exfalso].
    assert (A5 : (p4 + 4 <= length content)%nat) by (clear - L5 H; lia).
    assert (A4 : (p3 + 8 <= length content)%nat) by (clear - P4 A5; lia).
    assert (A3 : (p2 + 10 <= length content)%nat) by (clear - P3 A4; lia).
    assert (A2 : (p1 + 12 <= length content)%nat) by (clear - P2 A3; lia).
    clear - P1 A2 Hlen. lia.
  - intros H1 H2.
    assert (Q1 : p1 = (first + 2)%nat) by (clear - P1 H1; lia).
    assert (Q2 : p2 = (first + 4)%nat) by (clear - P2 Q1 H1; lia).
    assert (Q3 : p3 = (first + 6)%nat) by (clear - P3 Q2 H1; lia).
    assert (Q4 : p4 = (first + 10)%nat) by (clear - P4 Q3 H1; lia).
    assert (Q6 : p6 = (second + 2)%nat) by (clear - P6 H2; lia).
    assert (Q7 : p7 = (second + 4)%nat) by (clear - P7 Q6 H2; lia).
    repeat split.
    + clear - L1 H1; lia.
    + clear - L2 Q1 H1; lia.
    + clear - L3 Q2 H1; lia.
    + clear - L4 Q3 H1; lia.
    + clear - L5 Q4 H1; lia.
    + clear - L6 H2; lia.
    + clear - L7 Q6 H2; lia.
    + clear - L8 Q7 H2; lia.
Qed.

(** X1. A file too short to hold the data sample format code, fewer than
    3226 bytes, is answered [False]: the short read makes the first
    [unpack] fail inside its [try]. *)
Theorem is_segy_short_file_false (content : list byte)
  (Hshort : (length content < 3226)%nat) :
  Detector._is_segy (Detector.Readable content) = Ok false.
Proof.
  unfold Detector._is_segy. rewrite read_raw_fields_at.
  change 3226%nat with (3212 + 14)%nat in Hshort.
  pose proof (proj1 (read_fields_at_lengths 3212 3500 content) Hshort) as Hl.
  cbv zeta in Hl. unfold Detector.select_endian.
  rewrite (unpack_h_short Big _ Hl). reflexivity.
Qed.

Lemma is_segy_short_file_false_witness :
  Detector._is_segy (Detector.Readable [x00; x01]) = Ok false.
Proof.
  apply (is_segy_short_file_false [x00; x01]). cbn [length]. lia.
Defined.

Lemma sanity_checks_returns (e : endian) (f : Detector.raw_fields) :
  length (Detector._number_of_data_traces f) = 2%nat ->
  length (Detector._number_of_auxiliary_traces f) = 2%nat ->
  length (Detector._sample_interval f) = 2%nat ->
  length (Detector._samples_per_trace f) = 2%nat ->
  length (Detector._format_number f) = 2%nat ->
  length (Detector._fixed_length f) = 2%nat ->
  length (Detector._extended_number f) = 2%nat ->
  exists b, Detector.sanity_checks e f = Ok b.
Proof.
  intros H1 H2 H3 H4 H5 H6 H7. unfold Detector.sanity_checks.
  destruct (unpack_h_two e _ H3) as [si ->].
  destruct (unpack_h_two e _ H4) as [spt ->].
  destruct (unpack_h_two e _ H1) as [ndt ->].
  destruct (unpack_h_two e _ H2) as [naux ->].
  destruct (unpack_h_two e _ H5) as [fmt ->].
  destruct (unpack_h_two e _ H6) as [fixd ->].
  destruct (unpack_h_two e _ H7) as [ext ->].
  cbn [bind].
  destruct (negb _); [now exists false|].
  destruct (_ || _); [now exists false | now exists true].
Qed.

(** X2. On a file of at least 3506 bytes every read returns its two bytes
    and the check answers [True] or [False]: it does not raise. *)
Theorem is_segy_long_file_returns (content : list byte)
  (Hlong : (3506 <= length content)%nat) :
  exists b, Detector._is_segy (Detector.Readable content) = Ok b.
Proof.
  unfold Detector._is_segy. rewrite read_raw_fields_at.
  destruct (proj2 (read_fields_at_lengths 3212 3500 content))
    as (H1 & H2 & H3 & H4 & H5 & H6 & H7 & H8).
  { change (3212 + 14)%nat with 3226%nat. lia. }
  { change (3500 + 6)%nat with 3506%nat. exact Hlong. }
  unfold Detector.select_endian.
  destruct (unpack_h_two Big _ H5) as [be ->].
  destruct (unpack_h_two Little _ H5) as [le ->].
  destruct (Detector.valid_format be).
  - cbn [bind]. now apply sanity_checks_returns.
  - cbn [bind]. destruct (Detector.valid_format le); cbn [bind].
    + now apply sanity_checks_returns.
    + now exists false.
Qed.

(** A file of 3600 bytes: sample interval and samples per trace 1000,
    format code 5, no extended header. *)
Definition plain_file : list byte := Layout.make_file 1000 1000 5 0 3600.

Lemma is_segy_long_file_returns_witness :
  exists b, Detector._is_segy (Detector.Readable plain_file) = Ok b.
Proof.
  apply (is_segy_long_file_returns plain_file).
  apply Nat.leb_le. vm_compute. reflexivity.
Defined.

Lemma select_endian_some (s : list byte) (e : endian) :
  Detector.select_endian s = Ok (Some e) ->
  exists code, unpack_h e s = Ok code /\ In code [1; 2; 3; 4; 5; 8].
Proof.
  unfold Detector.select_endian.
  destruct (unpack_h Big s) as [be|] eqn:Hbe; [|discriminate].
  destruct (Detector.valid_format be) eqn:Vbe.
  - intros [= <-]. exists be. split; [exact Hbe | now apply valid_format_spec].
  - destruct (unpack_h Little s) as [le|] eqn:Hle; [|discriminate].
    cbn [bind]. destruct (Detector.valid_format le) eqn:Vle; [|discriminate].
    intros [= <-]. exists le. split; [exact Hle | now apply valid_format_spec].
Qed.

(** The fields of a file for which the checks of lines 85-126 give
    [True]. *)
Lemma accepted_fields (f : Detector.raw_fields) :
  (let! o := Detector.select_endian (Detector.data_format_code f) in
   match o with
   | None => Ok false
   | Some _endian => Detector.sanity_checks _endian f
   end) = Ok true ->
  exists e code si spt ndt naux fmt fixd ext,
    unpack_h e (Detector.data_format_code f) = Ok code
    /\ In code [1; 2; 3; 4; 5; 8]
    /\ unpack_h e (Detector._sample_interval f) = Ok si /\ 0 < si
    /\ unpack_h e (Detector._samples_per_trace f) = Ok spt /\ 0 < spt
    /\ unpack_h e (Detector._number_of_data_traces f) = Ok ndt /\ 0 <= ndt
    /\ unpack_h e (Detector._number_of_auxiliary_traces f) = Ok naux
    /\ 0 <= naux
    /\ unpack_h e (Detector._format_number f) = Ok fmt
    /\ In fmt [0; 256; 16; 1]
    /\ unpack_h e (Detector._fixed_length f) = Ok fixd /\ 0 <= fixd
    /\ unpack_h e (Detector._extended_number f) = Ok ext /\ 0 <= ext.
Proof.
  intros Htrue.
  destruct (Detector.select_endian (Detector.data_format_code f))
    as [[e|]|] eqn:Hsel; cbn [bind] in Htrue; try discriminate.
  destruct (select_endian_some _ _ Hsel) as (code & Hcode & Hvalid).
  unfold Detector.sanity_checks in Htrue.
  destruct (unpack_h e (Detector._sample_interval f)) as [si|] eqn:E1;
    cbn [bind] in Htrue; [|discriminate].
  destruct (unpack_h e (Detector._samples_per_trace f)) as [spt|] eqn:E2;
    cbn [bind] in Htrue; [|discriminate].
  destruct (unpack_h e (Detector._number_of_data_traces f)) as [ndt|] eqn:E3;
    cbn [bind] in Htrue; [|discriminate].
  destruct (unpack_h e (Detector._number_of_auxiliary_traces f))
    as [naux|] eqn:E4; cbn [bind] in Htrue; [|discriminate].
  destruct (unpack_h e (Detector._format_number f)) as [fmt|] eqn:E5;
    cbn [bind] in Htrue; [|discriminate].
  destruct (existsb (Z.eqb fmt) [0; 256; 16; 1]) eqn:Hfmt;
    cbn [negb] in Htrue; [|discriminate].
  destruct (unpack_h e (Detector._fixed_length f)) as [fixd|] eqn:E6;
    cbn [bind] in Htrue; [|discriminate].
  destruct (unpack_h e (Detector._extended_number f)) as [ext|] eqn:E7;
    cbn [bind] in Htrue; [|discriminate].
  destruct (_ || _) eqn:Hchecks; [discriminate|].
  repeat (apply orb_false_iff in Hchecks; destruct Hchecks as [Hchecks ?]).
  exists e, code, si, spt, ndt, naux, fmt, fixd, ext.
  repeat match goal with
         | H : (_ <? _) = false |- _ => apply Z.ltb_ge in H
         | H : (_ <=? _) = false |- _ => apply Z.leb_gt in H
         end.
  assert (In fmt [0; 256; 16; 1]).
  { cbn [existsb] in Hfmt. rewrite !orb_true_iff, !Z.eqb_eq in Hfmt.
    cbn [In]. intuition lia. }
  repeat (split; [first [assumption | lia]|]). lia.
Qed.

Lemma is_segy_readable (content : list byte) :
  Detector._is_segy (Detector.Readable content)
  = let f := Detector.read_raw_fields content in
    let! o := Detector.select_endian (Detector.data_format_code f) in
    match o with
    | None => Ok false
    | Some _endian => Detector.sanity_checks _endian f
    end.
Proof. reflexivity. Qed.

(** X3. When the check answers [True], one byte order makes the data
    sample format code one of 1, 2, 3, 4, 5, 8, and in that byte order the
    sample interval and the samples per trace are positive, the two trace
    counts, the fixed length flag and the number of extended headers are
    not negative, and the format number is 0, 0x0100, 0x0010 or 0x0001. *)
Theorem is_segy_true_fields (content : list byte)
  (Htrue : Detector._is_segy (Detector.Readable content) = Ok true) :
  exists f e code si spt ndt naux fmt fixd ext,
    f = Detector.read_raw_fields content
    /\ unpack_h e (Detector.data_format_code f) = Ok code
    /\ In code [1; 2; 3; 4; 5; 8]
    /\ unpack_h e (Detector._sample_interval f) = Ok si /\ 0 < si
    /\ unpack_h e (Detector._samples_per_trace f) = Ok spt /\ 0 < spt
    /\ unpack_h e (Detector._number_of_data_traces f) = Ok ndt /\ 0 <= ndt
    /\ unpack_h e (Detector._number_of_auxiliary_traces f) = Ok naux
    /\ 0 <= naux
    /\ unpack_h e (Detector._format_number f) = Ok fmt
    /\ In fmt [0; 256; 16; 1]
    /\ unpack_h e (Detector._fixed_length f) = Ok fixd /\ 0 <= fixd
    /\ unpack_h e (Detector._extended_number f) = Ok ext /\ 0 <= ext.
Proof.
  exists (Detector.read_raw_fields content).
  rewrite is_segy_readable in Htrue.
  destruct (accepted_fields (Detector.read_raw_fields content) Htrue)
    as (e & code & si & spt & ndt & naux & fmt & fixd & ext & H).
  exists e, code, si, spt, ndt, naux, fmt, fixd, ext.
  split; [reflexivity | exact H].
Qed.

Lemma is_segy_true_fields_witness :
  exists e code,
    unpack_h e (Detector.data_format_code
                  (Detector.read_raw_fields plain_file)) = Ok code
    /\ In code [1; 2; 3; 4; 5; 8].
Proof.
  destruct (is_segy_true_fields plain_file)
    as (f & e & code & si & spt & ndt & naux & fmt & fixd & ext & -> & H).
  - vm_compute. reflexivity.
  - exists e, code. split; apply H.
Defined.

(** ** [seismo_segy_read_extended_textual_headers]: no header found *)

Lemma scan_loop_stops (unread : list byte) (hs : list string) (n : Z) :
  unread = [] \/ Scanner.is_text_block (firstn 3200 unread) = false ->
  Scanner.scan_loop unread hs n = Ok (hs, n).
Proof.
  intros H. rewrite scan_loop_unfold, header_block_eq.
  destruct (firstn 3200 unread) as [|b l] eqn:Hblock; [reflexivity|].
  destruct H as [->|H]; [rewrite firstn_nil in Hblock; discriminate|].
  rewrite H. reflexivity.
Qed.

Lemma scan_loop_keeps (unread : list byte) (hs : list string) (n : Z) :
  unread <> [] -> Scanner.is_text_block (firstn 3200 unread) = true ->
  exists more k,
    Scanner.scan_loop unread hs n
    = Ok (hs ++ header_text (firstn 3200 unread) :: more, k).
Proof.
  intros Hne Htext. rewrite scan_loop_unfold, header_block_eq.
  destruct (firstn 3200 unread) as [|b l] eqn:Hblock.
  { destruct unread; [now elim Hne | discriminate]. }
  rewrite Htext, (decode_text_block _ Htext). cbn [bind].
  destruct (scan_loop_accepts (skipn 3200 unread)
              (hs ++ [Scanner.strip (ascii_text (b :: l))])
              (n + Z.of_nat (length (b :: l))))
    as (more & tail & _ & _ & Hrun).
  rewrite Hrun. eexists _, _. rewrite <- app_assoc. reflexivity.
Qed.

Lemma join_lines_empty (headers : list string) :
  join_lines headers = EmptyString -> headers = [].
Proof.
  destruct headers as [|h hs]; [reflexivity|].
  cbn [join_lines]. intros H. exfalso.
  destruct (Scanner.replace_crlf h); discriminate H.
Qed.

(** X12. The function returns the empty string exactly when the file has
    nothing behind its first 3600 bytes or the first block read there is
    not a text block; as soon as one block is accepted the result holds
    at least its line feed. *)
Theorem read_extended_textual_headers_empty (content : list byte) :
  Scanner.seismo_segy_read_extended_textual_headers content = Ok EmptyString
  <-> (skipn 3600 content = []
       \/ Scanner.is_text_block (firstn 3200 (skipn 3600 content)) = false).
Proof.
  unfold Scanner.seismo_segy_read_extended_textual_headers, Scanner.scan.
  split.
  - intros Hrun.
    destruct (skipn 3600 content) as [|b0 l0] eqn:Hunread; [now left|].
    right.
    destruct (Scanner.is_text_block (firstn 3200 (b0 :: l0))) eqn:Htext;
      [|reflexivity].
    exfalso.
    destruct (scan_loop_keeps (b0 :: l0) [] 0) as (more & k & Hkeep);
      [discriminate | exact Htext |].
    rewrite Hkeep in Hrun. cbn [bind fst app] in Hrun.
    rewrite format_headers_join in Hrun.
    injection Hrun as Hrun.
    pose proof (join_lines_empty (_ :: more) Hrun) as Hnil.
    discriminate Hnil.
  - intros H. rewrite (scan_loop_stops _ [] 0 H). reflexivity.
Qed.

(** ** [_write_segy]: which error, and when the file is written *)

Section WriteMore.

Context {dtype FileName FS TraceHeader : Type}.
Variable dtype_eqb : dtype -> dtype -> bool.
Variable DATA_SAMPLE_FORMAT_CODE_DTYPE : Z -> option dtype.

Lemma check_lengths_ok (trs : list (Writer.Trace dtype TraceHeader)) :
  Forall (fun tr => Writer.npts _ _ tr <= Writer.MAX_NUMBER_OF_SAMPLES) trs ->
  Writer.check_lengths dtype TraceHeader trs = Ok tt.
Proof.
  induction 1 as [|tr trs Htr _ IH]; [reflexivity|].
  cbn [Writer.check_lengths].
  destruct (Z.ltb_spec Writer.MAX_NUMBER_OF_SAMPLES (Writer.npts _ _ tr));
    [lia | exact IH].
Qed.

Lemma check_traces_ok (valid_dtype : dtype)
  (trs : list (Writer.Trace dtype TraceHeader)) :
  Forall (fun tr =>
            dtype_eqb (Writer.data_dtype _ _ tr) valid_dtype = true
            /\ SFltb Writer.MAX_INTERVAL_IN_SECONDS (Writer.delta _ _ tr)
               = false) trs ->
  Writer.check_traces dtype TraceHeader dtype_eqb valid_dtype trs = Ok tt.
Proof.
  induction 1 as [|tr trs [Hd Hi] _ IH]; [reflexivity|].
  cbn [Writer.check_traces]. rewrite Hd, Hi. exact IH.
Qed.

(** The checks pass: the encoding that is chosen is handed on. *)
Lemma validate_ok (stream : Writer.Stream dtype TraceHeader)
  (data_encoding : option Z) (code : Z) (valid_dtype : dtype) :
  Forall (fun tr => Writer.npts _ _ tr <= Writer.MAX_NUMBER_OF_SAMPLES)
         (Writer.traces _ _ stream) ->
  Writer.choose_data_encoding dtype TraceHeader stream data_encoding
  = Ok code ->
  DATA_SAMPLE_FORMAT_CODE_DTYPE code = Some valid_dtype ->
  Forall (fun tr =>
            dtype_eqb (Writer.data_dtype _ _ tr) valid_dtype = true
            /\ SFltb Writer.MAX_INTERVAL_IN_SECONDS (Writer.delta _ _ tr)
               = false) (Writer.traces _ _ stream) ->
  Writer.validate dtype TraceHeader dtype_eqb DATA_SAMPLE_FORMAT_CODE_DTYPE
    stream data_encoding = Ok code.
Proof.
  intros Hlen Hcode Hd Htr. unfold Writer.validate.
  rewrite (check_lengths_ok _ Hlen). cbn [bind].
  rewrite Hcode. cbn [bind]. rewrite Hd. cbn [bind].
  rewrite (check_traces_ok _ _ Htr). reflexivity.
Qed.

End WriteMore.

(** The writer of the examples creates the file. *)
Definition creating_writer
  : Writer.Stream Writer.np_dtype unit -> string -> Z ->
    option string -> option string -> list (string * list byte) ->
    result unit * list (string * list byte) :=
  fun _ filename _ _ _ fs => (Ok tt, (filename, []) :: fs).

Definition short_float32_trace : Writer.Trace Writer.np_dtype unit :=
  {| Writer.npts := 100;
     Writer.data_dtype := Writer.float32;
     Writer.delta := float_of_int 0;
     Writer.segy_trace_header := None |}.

Definition long_float32_trace : Writer.Trace Writer.np_dtype unit :=
  {| Writer.npts := 32768;
     Writer.data_dtype := Writer.float32;
     Writer.delta := float_of_int 0;
     Writer.segy_trace_header := None |}.

(** A stream whose [stats] hold a data encoding, 3, and nothing else. *)
Definition int16_stats_stream : Writer.Stream Writer.np_dtype unit :=
  {| Writer.traces := [short_float32_trace];
     Writer.stats :=
       Some {| Writer.stats_data_encoding := Some 3;
               Writer.binary_file_header := None;
               Writer.stats_endian := None;
               Writer.textual_file_header_encoding := None |} |}.

(** X14. With a data encoding given that is one of 1, 2, 3, 4, 5, 8 and
    has a dtype, and every trace of at most 32767 samples, of that dtype
    and with a sample interval not above 0.065535 s, none of the checks
    raises: the file is built and written with that encoding. *)
Theorem write_segy_explicit_encoding
  (dtype FileName FS TraceHeader : Type)
  (dtype_eqb : dtype -> dtype -> bool)
  (DATA_SAMPLE_FORMAT_CODE_DTYPE : Z -> option dtype)
  (build_and_write :
     Writer.Stream dtype TraceHeader -> FileName -> Z ->
     option string -> option string -> FS -> result unit * FS)
  (stream : Writer.Stream dtype TraceHeader) (filename : FileName)
  (code : Z) (valid_dtype : dtype)
  (byteorder textual_header_encoding : option string) (fs : FS)
  (Hvalid : In code [1; 2; 3; 4; 5; 8])
  (Hdtype : DATA_SAMPLE_FORMAT_CODE_DTYPE code = Some valid_dtype)
  (Htraces :
     Forall (fun tr =>
               Writer.npts _ _ tr <= Writer.MAX_NUMBER_OF_SAMPLES
               /\ dtype_eqb (Writer.data_dtype _ _ tr) valid_dtype = true
               /\ SFltb Writer.MAX_INTERVAL_IN_SECONDS (Writer.delta _ _ tr)
                  = false) (Writer.traces _ _ stream)) :
  Writer._write_segy dtype FileName FS TraceHeader dtype_eqb
    DATA_SAMPLE_FORMAT_CODE_DTYPE build_and_write
    stream filename (Some code) byteorder textual_header_encoding fs
  = build_and_write stream filename code byteorder textual_header_encoding fs.
Proof.
  unfold Writer._write_segy.
  rewrite (validate_ok dtype_eqb DATA_SAMPLE_FORMAT_CODE_DTYPE stream
             (Some code) code valid_dtype); [reflexivity | | | | ].
  - revert Htraces. apply List.Forall_impl. intros tr H. apply H.
  - cbn [Writer.choose_data_encoding].
    rewrite (proj2 (valid_format_spec code) Hvalid). reflexivity.
  - exact Hdtype.
  - revert Htraces. apply List.Forall_impl. intros tr H. apply H.
Qed.

Lemma write_segy_explicit_encoding_witness :
  Writer._write_segy Writer.np_dtype string (list (string * list byte)) unit
    Writer.np_dtype_eqb Writer.code_dtype creating_writer
    int16_stats_stream "out.sgy"%string (Some 5) None None []
  = (Ok tt, [("out.sgy"%string, [])]).
Proof.
  apply (write_segy_explicit_encoding
           Writer.np_dtype string (list (string * list byte)) unit
           Writer.np_dtype_eqb Writer.code_dtype creating_writer
           int16_stats_stream "out.sgy"%string 5 Writer.float32 None None []).
  - right. right. right. right. left. reflexivity.
  - reflexivity.
  - constructor; [|constructor].
    split; [vm_compute; discriminate|]. split; vm_compute; reflexivity.
Defined.

(** X15. A trace of more than 32767 samples makes the function raise
    [ValueError], whatever the data encoding asked for and the other
    traces are: the lengths are checked first.  The file system is left
    as it was. *)
Theorem write_segy_too_many_samples
  (dtype FileName FS TraceHeader : Type)
  (dtype_eqb : dtype -> dtype -> bool)
  (DATA_SAMPLE_FORMAT_CODE_DTYPE : Z -> option dtype)
  (build_and_write :
     Writer.Stream dtype TraceHeader -> FileName -> Z ->
     option string -> option string -> FS -> result unit * FS)
  (stream : Writer.Stream dtype TraceHeader) (filename : FileName)
  (data_encoding : option Z)
  (byteorder textual_header_encoding : option string) (fs : FS)
  (tr : Writer.Trace dtype TraceHeader)
  (Hin : In tr (Writer.traces _ _ stream))
  (Hlong : Writer.MAX_NUMBER_OF_SAMPLES < Writer.npts _ _ tr) :
  Writer._write_segy dtype FileName FS TraceHeader dtype_eqb
    DATA_SAMPLE_FORMAT_CODE_DTYPE build_and_write
    stream filename data_encoding byteorder textual_header_encoding fs
  = (Raise ValueError, fs).
Proof.
  unfold Writer._write_segy, Writer.validate.
  rewrite (check_lengths_raise _ _ Hin Hlong). reflexivity.
Qed.

Lemma write_segy_too_many_samples_witness :
  Writer._write_segy Writer.np_dtype string (list (string * list byte)) unit
    Writer.np_dtype_eqb Writer.code_dtype creating_writer
    {| Writer.traces := [short_float32_trace; long_float32_trace];
       Writer.stats := None |}
    "out.sgy"%string (Some 7) None None []
  = (Raise ValueError, []).
Proof.
  apply (write_segy_too_many_samples
           Writer.np_dtype string (list (string * list byte)) unit
           Writer.np_dtype_eqb Writer.code_dtype creating_writer
           {| Writer.traces := [short_float32_trace; long_float32_trace];
              Writer.stats := None |}
           "out.sgy"%string (Some 7) None None [] long_float32_trace).
  - right. left. reflexivity.
  - reflexivity.
Defined.

(** X16. When no trace is too long, a data encoding given that is not one
    of 1, 2, 3, 4, 5, 8 raises [SEGYCoreWritingError] before the traces
    are looked at, and nothing is written. *)
Theorem write_segy_invalid_encoding
  (dtype FileName FS TraceHeader : Type)
  (dtype_eqb : dtype -> dtype -> bool)
  (DATA_SAMPLE_FORMAT_CODE_DTYPE : Z -> option dtype)
  (build_and_write :
     Writer.Stream dtype TraceHeader -> FileName -> Z ->
     option string -> option string -> FS -> result unit * FS)
  (stream : Writer.Stream dtype TraceHeader) (filename : FileName)
  (code : Z)
  (byteorder textual_header_encoding : option string) (fs : FS)
  (Hlen : Forall (fun tr =>
                    Writer.npts _ _ tr <= Writer.MAX_NUMBER_OF_SAMPLES)
                 (Writer.traces _ _ stream))
  (Hinvalid : ~ In code [1; 2; 3; 4; 5; 8]) :
  Writer._write_segy dtype FileName FS TraceHeader dtype_eqb
    DATA_SAMPLE_FORMAT_CODE_DTYPE build_and_write
    stream filename (Some code) byteorder textual_header_encoding fs
  = (Raise SEGYCoreWritingError, fs).
Proof.
  unfold Writer._write_segy, Writer.validate.
  rewrite (check_lengths_ok _ Hlen). cbn [bind Writer.choose_data_encoding].
  destruct (Detector.valid_format code) eqn:Hv; [|reflexivity].
  exfalso. apply Hinvalid. apply valid_format_spec. exact Hv.
Qed.

Lemma write_segy_invalid_encoding_witness :
  Writer._write_segy Writer.np_dtype string (list (string * list byte)) unit
    Writer.np_dtype_eqb Writer.code_dtype creating_writer
    int16_stats_stream "out.sgy"%string (Some 7) None None []
  = (Raise SEGYCoreWritingError, []).
Proof.
  apply (write_segy_invalid_encoding
           Writer.np_dtype string (list (string * list byte)) unit
           Writer.np_dtype_eqb Writer.code_dtype creating_writer
           int16_stats_stream "out.sgy"%string 7 None None []).
  - constructor; [vm_compute; discriminate | constructor].
  - intros H. repeat (destruct H as [H|H]; [discriminate H|]). exact H.
Defined.

(** X17. [stream.stats.data_encoding] is never used: with no data encoding
    given and no [binary_file_header] in the stats, the encoding is 1
    whatever the stats say, so the traces are checked against the dtype of
    encoding 1 and the file is written with it. *)
Theorem write_segy_default_encoding
  (dtype FileName FS TraceHeader : Type)
  (dtype_eqb : dtype -> dtype -> bool)
  (DATA_SAMPLE_FORMAT_CODE_DTYPE : Z -> option dtype)
  (build_and_write :
     Writer.Stream dtype TraceHeader -> FileName -> Z ->
     option string -> option string -> FS -> result unit * FS)
  (stream : Writer.Stream dtype TraceHeader) (filename : FileName)
  (valid_dtype : dtype)
  (byteorder textual_header_encoding : option string) (fs : FS)
  (Hheader : forall st, Writer.stats _ _ stream = Some st ->
                        Writer.binary_file_header st = None)
  (Hdtype : DATA_SAMPLE_FORMAT_CODE_DTYPE 1 = Some valid_dtype)
  (Htraces :
     Forall (fun tr =>
               Writer.npts _ _ tr <= Writer.MAX_NUMBER_OF_SAMPLES
               /\ dtype_eqb (Writer.data_dtype _ _ tr) valid_dtype = true
               /\ SFltb Writer.MAX_INTERVAL_IN_SECONDS (Writer.delta _ _ tr)
                  = false) (Writer.traces _ _ stream)) :
  Writer._write_segy dtype FileName FS TraceHeader dtype_eqb
    DATA_SAMPLE_FORMAT_CODE_DTYPE build_and_write
    stream filename None byteorder textual_header_encoding fs
  = build_and_write stream filename 1 byteorder textual_header_encoding fs.
Proof.
  unfold Writer._write_segy.
  rewrite (validate_ok dtype_eqb DATA_SAMPLE_FORMAT_CODE_DTYPE stream
             None 1 valid_dtype); [reflexivity | | | | ].
  - revert Htraces. apply List.Forall_impl. intros tr H. apply H.
  - cbn [Writer.choose_data_encoding].
    destruct (Writer.stats _ _ stream) as [st|] eqn:Hst; [|reflexivity].
    rewrite (Hheader st eq_refl). reflexivity.
  - exact Hdtype.
  - revert Htraces. apply List.Forall_impl. intros tr H. apply H.
Qed.

Lemma write_segy_default_encoding_witness :
  Writer._write_segy Writer.np_dtype string
    (list (string * Z)) unit
    Writer.np_dtype_eqb Writer.code_dtype
    (fun _ filename code _ _ fs => (Ok tt, (filename, code) :: fs))
    int16_stats_stream "out.sgy"%string None None None []
  = (Ok tt, [("out.sgy"%string, 1)]).
Proof.
  apply (write_segy_default_encoding
           Writer.np_dtype string (list (string * Z)) unit
           Writer.np_dtype_eqb Writer.code_dtype
           (fun _ filename code _ _ fs => (Ok tt, (filename, code) :: fs))
           int16_stats_stream "out.sgy"%string Writer.float32 None None []).
  - intros st [= <-]. reflexivity.
  - reflexivity.
  - constructor; [|constructor].
    split; [vm_compute; discriminate|]. split; vm_compute; reflexivity.
Defined.

(** X18. With no data encoding given, the format code of
    [stream.stats.binary_file_header] is used as it is: it is not compared
    with the valid formats, only looked up for its dtype. *)
Theorem write_segy_header_encoding
  (dtype FileName FS TraceHeader : Type)
  (dtype_eqb : dtype -> dtype -> bool)
  (DATA_SAMPLE_FORMAT_CODE_DTYPE : Z -> option dtype)
  (build_and_write :
     Writer.Stream dtype TraceHeader -> FileName -> Z ->
     option string -> option string -> FS -> result unit * FS)
  (stream : Writer.Stream dtype TraceHeader) (filename : FileName)
  (st : Writer.Stats) (code : Z)
  (byteorder textual_header_encoding : option string) (fs : FS)
  (Hstats : Writer.stats _ _ stream = Some st)
  (Hheader : Writer.binary_file_header st = Some (Some code))
  (Hlen : Forall (fun tr =>
                    Writer.npts _ _ tr <= Writer.MAX_NUMBER_OF_SAMPLES)
                 (Writer.traces _ _ stream)) :
  (forall valid_dtype,
     DATA_SAMPLE_FORMAT_CODE_DTYPE code = Some valid_dtype ->
     Forall (fun tr =>
               dtype_eqb (Writer.data_dtype _ _ tr) valid_dtype = true
               /\ SFltb Writer.MAX_INTERVAL_IN_SECONDS (Writer.delta _ _ tr)
                  = false) (Writer.traces _ _ stream) ->
     Writer._write_segy dtype FileName FS TraceHeader dtype_eqb
       DATA_SAMPLE_FORMAT_CODE_DTYPE build_and_write
       stream filename None byteorder textual_header_encoding fs
     = build_and_write stream filename code byteorder
         textual_header_encoding fs)
  /\ (DATA_SAMPLE_FORMAT_CODE_DTYPE code = None ->
      Writer._write_segy dtype FileName FS TraceHeader dtype_eqb
        DATA_SAMPLE_FORMAT_CODE_DTYPE build_and_write
        stream filename None byteorder textual_header_encoding fs
      = (Raise KeyError, fs)).
Proof.
  assert (Hcode : Writer.choose_data_encoding dtype TraceHeader stream None
                  = Ok code).
  { cbn [Writer.choose_data_encoding]. rewrite Hstats, Hheader.
    reflexivity. }
  split.
  - intros valid_dtype Hdtype Htraces. unfold Writer._write_segy.
    rewrite (validate_ok dtype_eqb DATA_SAMPLE_FORMAT_CODE_DTYPE stream
               None code valid_dtype Hlen Hcode Hdtype Htraces).
    reflexivity.
  - intros Hdtype. unfold Writer._write_segy, Writer.validate.
    rewrite (check_lengths_ok _ Hlen). cbn [bind].
    rewrite Hcode. cbn [bind]. rewrite Hdtype. reflexivity.
Qed.

(** A stream read from a file whose header holds the format code 4, for
    which there is no dtype. *)
Definition code4_stream : Writer.Stream Writer.np_dtype unit :=
  {| Writer.traces := [short_float32_trace];
     Writer.stats :=
       Some {| Writer.stats_data_encoding := Some 1;
               Writer.binary_file_header := Some (Some 4);
               Writer.stats_endian := None;
               Writer.textual_file_header_encoding := None |} |}.

Lemma write_segy_header_encoding_witness :
  Writer._write_segy Writer.np_dtype string (list (string * list byte)) unit
    Writer.np_dtype_eqb Writer.code_dtype creating_writer
    code4_stream "out.sgy"%string None None None []
  = (Raise KeyError, []).
Proof.
  refine (proj2 (write_segy_header_encoding
           Writer.np_dtype string (list (string * list byte)) unit
           Writer.np_dtype_eqb Writer.code_dtype creating_writer
           code4_stream "out.sgy"%string _ 4 None None []
           eq_refl eq_refl _) eq_refl).
  constructor; [vm_compute; discriminate | constructor].
Defined.

(** ** [LazyTraceHeaderAttribDict]: what an access returns *)

(** X19. A name that is neither in [__dict__] nor in [TRACE_HEADER_KEYS]
    raises [AttributeError]; nothing is cached and the buffer is not
    read. *)
Theorem getitem_unknown_name
  (TRACE_HEADER_FORMAT : list (nat * string * option string * nat))
  (TRACE_HEADER_KEYS : list string)
  (unpack_header_value :
     endian -> list byte -> nat -> option string -> result LazyHeader.value)
  (h : LazyHeader.heap) (self : positive) (d : LazyHeader.instance)
  (name : string)
  (Hself : LazyHeader.objects h !! self = Some d)
  (Hcache : LazyHeader.dict_of d !! name = None)
  (Hname : ~ In name TRACE_HEADER_KEYS) :
  LazyHeader.__getitem__ TRACE_HEADER_FORMAT TRACE_HEADER_KEYS
    unpack_header_value self name h
  = (Raise AttributeError, h).
Proof.
  rewrite (getitem_run _ _ _ self name h d Hself), Hcache.
  now rewrite (index_None _ _ Hname).
Qed.

Lemma getitem_unknown_name_witness :
  LazyHeader.__getitem__ LazyHeader.two_fields
    (map entry_name LazyHeader.two_fields) LazyHeader.unpack_two_bytes
    1%positive "day_of_year"%string LazyHeader.one_header
  = (Raise AttributeError, LazyHeader.one_header).
Proof.
  apply (getitem_unknown_name LazyHeader.two_fields
           (map entry_name LazyHeader.two_fields)
           LazyHeader.unpack_two_bytes
           LazyHeader.one_header 1%positive the_header
           "day_of_year"%string eq_refl eq_refl).
  intros [H|[H|[]]]; discriminate H.
Defined.

(** X20. A value set under a name other than [unpacked_header] and
    [endian] is what the next access of that name returns, whatever the
    bytes of the buffer are: the buffer is not read and the heap is not
    changed by the access. *)
Theorem setattr_then_getitem
  (TRACE_HEADER_FORMAT : list (nat * string * option string * nat))
  (TRACE_HEADER_KEYS : list string)
  (unpack_header_value :
     endian -> list byte -> nat -> option string -> result LazyHeader.value)
  (h : LazyHeader.heap) (self : positive) (d : LazyHeader.instance)
  (name : string) (v : LazyHeader.value)
  (Hself : LazyHeader.objects h !! self = Some d)
  (Hname : LazyHeader.is_readonly name = false) :
  exists h1,
    LazyHeader.__setattr__ self name v h = (Ok tt, h1)
    /\ LazyHeader.__getitem__ TRACE_HEADER_FORMAT TRACE_HEADER_KEYS
         unpack_header_value self name h1 = (Ok v, h1)
    /\ LazyHeader.buffer_reads h1 = LazyHeader.buffer_reads h.
Proof.
  rewrite (setattr_run self name v h d Hself), Hname.
  eexists. split; [reflexivity|]. split; [|reflexivity].
  rewrite (getitem_run _ _ _ self name _ (with_attribute d name v)).
  - rewrite dict_of_other by exact Hname.
    cbn [with_attribute LazyHeader.attributes].
    now rewrite lookup_insert_eq.
  - cbn. apply lookup_insert_eq.
Qed.

Lemma setattr_then_getitem_witness :
  exists h1,
    LazyHeader.__setattr__ 1%positive "source_measurement_unit"%string
      (LazyHeader.VInt 768) LazyHeader.one_header = (Ok tt, h1)
    /\ LazyHeader.__getitem__ LazyHeader.two_fields
         (map entry_name LazyHeader.two_fields) LazyHeader.unpack_two_bytes
         1%positive "source_measurement_unit"%string h1
       = (Ok (LazyHeader.VInt 768), h1)
    /\ LazyHeader.buffer_reads h1 = 0%nat.
Proof.
  apply (setattr_then_getitem LazyHeader.two_fields
           (map entry_name LazyHeader.two_fields)
           LazyHeader.unpack_two_bytes
           LazyHeader.one_header 1%positive the_header
           "source_measurement_unit"%string (LazyHeader.VInt 768)
           eq_refl eq_refl).
Defined.



(** X22. When [TRACE_HEADER_KEYS] lists the names of
    [TRACE_HEADER_FORMAT], what an access of a name returns does not
    depend on the accesses made before under other names: reading or
    setting other fields first changes neither the value nor the error. *)
Theorem getitem_after_other_accesses
  (TRACE_HEADER_FORMAT : list (nat * string * option string * nat))
  (TRACE_HEADER_KEYS : list string)
  (unpack_header_value :
     endian -> list byte -> nat -> option string -> result LazyHeader.value)
  (Hkeys : TRACE_HEADER_KEYS = map entry_name TRACE_HEADER_FORMAT)
  (h : LazyHeader.heap) (self : positive) (name : string)
  (accesses : list LazyHeader.access)
  (Hothers : Forall (fun a => access_name a <> name) accesses) :
  (LazyHeader.__getitem__ TRACE_HEADER_FORMAT TRACE_HEADER_KEYS
     unpack_header_value self name
     (LazyHeader.perform_all TRACE_HEADER_FORMAT TRACE_HEADER_KEYS
        unpack_header_value self accesses h)).1
  = (LazyHeader.__getitem__ TRACE_HEADER_FORMAT TRACE_HEADER_KEYS
       unpack_header_value self name h).1.
Proof.
  symmetry. apply getitem_same_at.
  revert h. induction Hothers as [|a accesses Ha _ IH]; intros h.
  - apply same_at_refl.
  - cbn [LazyHeader.perform_all fold_left].
    apply (same_at_trans self name h
             (LazyHeader.perform TRACE_HEADER_FORMAT TRACE_HEADER_KEYS
                unpack_header_value self a h)); [|apply IH].
    destruct a as [other|other v]; cbn [LazyHeader.perform access_name] in *.
    + apply getitem_keeps_others; [exact Hkeys | exact Ha].
    + apply setattr_keeps_others. exact Ha.
Qed.

Lemma getitem_after_other_accesses_witness :
  (LazyHeader.__getitem__ LazyHeader.two_fields
     (map entry_name LazyHeader.two_fields) LazyHeader.unpack_two_bytes
     1%positive "source_measurement_unit"%string
     (LazyHeader.perform_all LazyHeader.two_fields
        (map entry_name LazyHeader.two_fields) LazyHeader.unpack_two_bytes
        1%positive
        [LazyHeader.Get "trace_identification_code"%string;
         LazyHeader.Set_ "day_of_year"%string (LazyHeader.VInt 7)]
        LazyHeader.one_header)).1
  = Ok (LazyHeader.VInt 512).
Proof.
  rewrite (getitem_after_other_accesses LazyHeader.two_fields
             (map entry_name LazyHeader.two_fields)
             LazyHeader.unpack_two_bytes eq_refl
             LazyHeader.one_header 1%positive
             "source_measurement_unit"%string).
  - vm_compute. reflexivity.
  - constructor; [discriminate|]. constructor; [discriminate|]. constructor.
Defined.

(** ** [seismo_read_segy_]: traces that are left out *)

Section CountFacts.

Context {Trace : Type} (smu : Trace -> Z).

(** The unit of the trace is one of the three that are kept. *)
Definition known_unit (t : Trace) : bool :=
  (smu t =? 512) || (smu t =? 768) || (smu t =? 1024).

Lemma split_lengths (stream : list Trace) :
  (length (List.filter (fun t => (smu t =? 512)%Z) stream)
   + length (List.filter (fun t => (smu t =? 768)%Z) stream)
   + length (List.filter (fun t => (smu t =? 1024)%Z) stream))%nat
  = length (List.filter known_unit stream).
Proof.
  induction stream as [|t stream IH]; [reflexivity|].
  unfold known_unit in *. cbn [List.filter].
  destruct (Z.eqb_spec (smu t) 512) as [E1|E1];
    destruct (Z.eqb_spec (smu t) 768) as [E2|E2];
    destruct (Z.eqb_spec (smu t) 1024) as [E3|E3];
    cbn [orb length]; lia.
Qed.

Lemma filter_length_all (p : Trace -> bool) (stream : list Trace) :
  (length (List.filter p stream) <= length stream)%nat
  /\ (length (List.filter p stream) = length stream
      <-> Forall (fun t => p t = true) stream).
Proof.
  induction stream as [|t stream [IHle IHall]].
  - split; [reflexivity|]. split; [constructor | reflexivity].
  - cbn [List.filter]. destruct (p t) eqn:Ht; cbn [length].
    + split; [lia|]. split.
      * intros H. constructor; [exact Ht|]. apply IHall. lia.
      * intros H. inversion H; subst. f_equal. now apply IHall.
    + split; [lia|]. split; [lia|].
      intros H. inversion H; subst. congruence.
Qed.

End CountFacts.

(** X23. The three streams hold together as many traces as the file has
    traces whose source measurement unit is 512, 768 or 1024: never more
    than the file has, and all of them exactly when every trace has one of
    the three units.  A trace with another unit is dropped without an
    error. *)
Theorem seismo_read_segy_trace_count
  (FileName ReadOptions SEGYTrace Trace : Type)
  (_read_segyrev1 : FileName -> ReadOptions -> result (list SEGYTrace))
  (to_obspy_trace : bool -> bool -> SEGYTrace -> Trace)
  (smu : Trace -> Z)
  (filename : FileName) (headonly : bool) (options : ReadOptions)
  (unpack_trace_headers : bool) (segy_traces : list SEGYTrace)
  (Hread : _read_segyrev1 filename options = Ok segy_traces)
  (Hsome : segy_traces <> []) :
  exists Ns Es Zs,
    Components.seismo_read_segy_ FileName ReadOptions SEGYTrace Trace
      _read_segyrev1 to_obspy_trace smu
      filename headonly options unpack_trace_headers
    = Ok [Ns; Es; Zs]
    /\ (length Ns + length Es + length Zs <= length segy_traces)%nat
    /\ ((length Ns + length Es + length Zs)%nat = length segy_traces
        <-> Forall (fun tr =>
                      In (smu (to_obspy_trace headonly unpack_trace_headers
                                 tr)) [512; 768; 1024]) segy_traces).
Proof.
  set (stream := map (to_obspy_trace headonly unpack_trace_headers)
                     segy_traces).
  exists (List.filter (fun t => smu t =? 512) stream),
         (List.filter (fun t => smu t =? 768) stream),
         (List.filter (fun t => smu t =? 1024) stream).
  split.
  { unfold Components.seismo_read_segy_. rewrite Hread. cbn [bind].
    destruct segy_traces as [|first others]; [now elim Hsome|].
    fold stream. unfold Components.split_components.
    destruct (fold_assign smu stream
                {| Components.N_stream := [];
                   Components.E_stream := [];
                   Components.Z_stream := [] |}) as (HN & HE & HZ).
    cbn [Components.N_stream Components.E_stream Components.Z_stream app]
      in HN, HE, HZ.
    now rewrite HN, HE, HZ. }
  rewrite (split_lengths smu stream).
  destruct (filter_length_all (known_unit smu) stream) as [Hle Hall].
  assert (Hlen : length stream = length segy_traces)
    by apply length_map.
  rewrite <- Hlen. split; [exact Hle|].
  rewrite Hall. unfold stream. rewrite Forall_map.
  apply Forall_iff. intros tr. unfold known_unit. cbn [In].
  rewrite !orb_true_iff, !Z.eqb_eq. intuition congruence.
Qed.

Lemma seismo_read_segy_trace_count_witness :
  exists Ns Es Zs,
    Components.seismo_read_segy_ unit unit Z Z
      (fun _ _ => Ok [512; 7; 1024; 768; 512]) (fun _ _ t => t) (fun t => t)
      tt false tt false
    = Ok [Ns; Es; Zs]
    /\ (length Ns + length Es + length Zs <= 5)%nat.
Proof.
  destruct (seismo_read_segy_trace_count unit unit Z Z
              (fun _ _ => Ok [512; 7; 1024; 768; 512])
              (fun _ _ t => t) (fun t => t) tt false tt false
              [512; 7; 1024; 768; 512] eq_refl)
    as (N & E & Zs & Hrun & Hle & _).
  - discriminate.
  - exists N, E, Zs. split; [exact Hrun | exact Hle].
Defined.

(** ** [_write_su]: the checks and the byte order *)

Section WriteSUFacts.

Context {dtype FileName FS : Type}.
Variable dtype_eqb : dtype -> dtype -> bool.
Variable float32 : dtype.

Lemma su_check_traces_raise (trs : list (SUWriter.Trace dtype))
  (tr : SUWriter.Trace dtype) :
  In tr trs ->
  dtype_eqb (SUWriter.data_dtype _ tr) float32 = false
  \/ SFltb Writer.MAX_INTERVAL_IN_SECONDS (SUWriter.delta _ tr) = true ->
  SUWriter.check_traces dtype dtype_eqb float32 trs
  = Raise SEGYCoreWritingError
  \/ SUWriter.check_traces dtype dtype_eqb float32 trs
     = Raise SEGYSampleIntervalError.
Proof.
  intros Hin Hbad. induction trs as [|t trs IH]; [destruct Hin|].
  cbn [SUWriter.check_traces].
  destruct (dtype_eqb (SUWriter.data_dtype _ t) float32) eqn:Hd;
    cbn [negb]; [|now left].
  destruct (SFltb Writer.MAX_INTERVAL_IN_SECONDS (SUWriter.delta _ t))
    eqn:Hi; [now right|].
  destruct Hin as [->|Hin]; [|exact (IH Hin)].
  destruct Hbad as [Hbad|Hbad]; congruence.
Qed.

Lemma su_check_traces_ok (trs : list (SUWriter.Trace dtype)) :
  Forall (fun tr =>
            dtype_eqb (SUWriter.data_dtype _ tr) float32 = true
            /\ SFltb Writer.MAX_INTERVAL_IN_SECONDS (SUWriter.delta _ tr)
               = false) trs ->
  SUWriter.check_traces dtype dtype_eqb float32 trs = Ok tt.
Proof.
  induction 1 as [|tr trs [Hd Hi] _ IH]; [reflexivity|].
  cbn [SUWriter.check_traces]. rewrite Hd, Hi. exact IH.
Qed.

End WriteSUFacts.

(** X24. If a trace of the stream is not [float32] or has a sample
    interval above 0.065535 seconds, [_write_su] raises
    [SEGYCoreWritingError] or [SEGYSampleIntervalError] and the file
    system is what it was: every trace is checked before the file is
    built. *)
Theorem write_su_checks_before_writing
  (dtype FileName FS : Type)
  (dtype_eqb : dtype -> dtype -> bool) (float32 : dtype)
  (build_and_write :
     list (SUWriter.Trace dtype) -> FileName -> string -> FS ->
     result unit * FS)
  (stream : list (SUWriter.Trace dtype)) (filename : FileName)
  (byteorder : option string) (fs : FS)
  (tr : SUWriter.Trace dtype)
  (Hin : In tr stream)
  (Hbad :
     dtype_eqb (SUWriter.data_dtype _ tr) float32 = false
     \/ SFltb Writer.MAX_INTERVAL_IN_SECONDS (SUWriter.delta _ tr) = true) :
  SUWriter._write_su dtype FileName FS dtype_eqb float32 build_and_write
    stream filename byteorder fs = (Raise SEGYCoreWritingError, fs)
  \/ SUWriter._write_su dtype FileName FS dtype_eqb float32 build_and_write
       stream filename byteorder fs = (Raise SEGYSampleIntervalError, fs).
Proof.
  unfold SUWriter._write_su.
  destruct (su_check_traces_raise dtype_eqb float32 stream tr Hin Hbad)
    as [-> | ->]; [now left | now right].
Qed.

(** A trace of [float64] data behind one of [float32] data. *)
Definition su_float64_stream : list (SUWriter.Trace Writer.np_dtype) :=
  [{| SUWriter.data_dtype := Writer.float32;
      SUWriter.delta := float_of_int 0;
      SUWriter.su_endian := None |};
   {| SUWriter.data_dtype := Writer.float64;
      SUWriter.delta := float_of_int 0;
      SUWriter.su_endian := None |}].

Lemma write_su_checks_before_writing_witness :
  SUWriter._write_su Writer.np_dtype string (list (string * string))
    Writer.np_dtype_eqb Writer.float32
    (fun _ filename b fs => (Ok tt, (filename, b) :: fs))
    su_float64_stream "out.su"%string None []
  = (Raise SEGYCoreWritingError, []).
Proof.
  destruct (write_su_checks_before_writing
              Writer.np_dtype string (list (string * string))
              Writer.np_dtype_eqb Writer.float32
              (fun _ filename b fs => (Ok tt, (filename, b) :: fs))
              su_float64_stream "out.su"%string None []
              {| SUWriter.data_dtype := Writer.float64;
                 SUWriter.delta := float_of_int 0;
                 SUWriter.su_endian := None |})
    as [H|H].
  - right. left. reflexivity.
  - left. reflexivity.
  - exact H.
  - vm_compute in H. discriminate H.
Defined.

(** X25. When every trace passes the checks, the byte order given is used
    as it is.  With none given, the byte order is [stats.su.endian] of the
    first trace, ['>'] if that trace has none, whatever the other traces
    hold; on a stream without a trace, [stream[0]] raises [IndexError] and
    nothing is written. *)
Theorem write_su_byteorder
  (dtype FileName FS : Type)
  (dtype_eqb : dtype -> dtype -> bool) (float32 : dtype)
  (build_and_write :
     list (SUWriter.Trace dtype) -> FileName -> string -> FS ->
     result unit * FS)
  (stream : list (SUWriter.Trace dtype)) (filename : FileName)
  (byteorder : option string) (fs : FS)
  (Htraces :
     Forall (fun tr =>
               dtype_eqb (SUWriter.data_dtype _ tr) float32 = true
               /\ SFltb Writer.MAX_INTERVAL_IN_SECONDS (SUWriter.delta _ tr)
                  = false) stream) :
  SUWriter._write_su dtype FileName FS dtype_eqb float32 build_and_write
    stream filename byteorder fs
  = match byteorder, stream with
    | Some b, _ => build_and_write stream filename b fs
    | None, [] => (Raise IndexError, fs)
    | None, first :: _ =>
        build_and_write stream filename
          match SUWriter.su_endian _ first with
          | Some (Some e) => e
          | _ => ">"%string
          end fs
    end.
Proof.
  unfold SUWriter._write_su.
  rewrite (su_check_traces_ok dtype_eqb float32 stream Htraces).
  destruct byteorder as [b|]; [reflexivity|].
  destruct stream as [|first rest]; [reflexivity|].
  cbn [SUWriter.choose_byteorder].
  destruct (SUWriter.su_endian _ first) as [[e|]|]; reflexivity.
Qed.

Lemma write_su_byteorder_witness :
  SUWriter._write_su Writer.np_dtype string (list (string * string))
    Writer.np_dtype_eqb Writer.float32
    (fun _ filename b fs => (Ok tt, (filename, b) :: fs))
    [] "out.su"%string None []
  = (Raise IndexError, []).
Proof.
  apply (write_su_byteorder
           Writer.np_dtype string (list (string * string))
           Writer.np_dtype_eqb Writer.float32
           (fun _ filename b fs => (Ok tt, (filename, b) :: fs))
           [] "out.su"%string None []).
  constructor.
Defined.
